(** * ffio: the Python session wrapper [ffio/ffio.py]

    A shallow embedding of class [FFIO] (construction, validity test,
    decode, encode, teardown) and the properties its specification states.

    Conventions of the embedding.
    - A Python [str] is a [string]; a character is a code point below 256.
    - A Python [bytes] is a [list byte].
    - The engine ([c_lib], the structs and enums of [ffio.ffio_c]) is not part
      of the file: it is an interface, class [ffio_c], over which every
      definition and theorem is parametric.
    - Engine calls and console output are recorded, in order, in a trace.
    - A raised exception is a [Raise] result; the trace survives it. *)

From Equations Require Import Equations.
From Stdlib Require Import ZArith List String Ascii Bool Lia.
From Stdlib.Strings Require Import Byte.
From Stdlib Require DecimalString HexadecimalString.
Import ListNotations.

Local Open Scope string_scope.
Local Open Scope Z_scope.

Set Implicit Arguments.

(* ===================================================================== *)
(** ** Python strings and bytes *)
(* ===================================================================== *)

Definition bytes := list byte.

(** [c.lower()] on one code point below 256: the ASCII capitals and the
    Latin-1 capitals (U+00C0..U+00DE without the multiplication sign). *)
Definition lower_char (c : ascii) : ascii :=
  let n := N_of_ascii c in
  if ((65 <=? n) && (n <=? 90))%N then ascii_of_N (n + 32)
  else if ((192 <=? n) && (n <=? 222) && negb (n =? 215))%N then ascii_of_N (n + 32)
  else c.

(** [s.lower()] *)
Fixpoint lower (s : string) : string :=
  match s with
  | EmptyString => EmptyString
  | String c s' => String (lower_char c) (lower s')
  end.

(** [s.startswith(p)] *)
Definition startswith (s p : string) : bool := String.prefix p s.

(** [len(s)] *)
Definition len (s : string) : Z := Z.of_nat (String.length s).

(** [x in l] for a list of strings. *)
Definition str_in (x : string) (l : list string) : bool :=
  existsb (String.eqb x) l.

Definition byte_of_N (n : N) : byte := byte_of_ascii (ascii_of_N n).

(** UTF-8 of one code point below 256. *)
Definition encode_char (c : ascii) : bytes :=
  let n := N_of_ascii c in
  if (n <? 128)%N then [byte_of_ascii c]
  else [byte_of_N (192 + n / 64); byte_of_N (128 + n mod 64)].

(** [s.encode()] *)
Fixpoint encode (s : string) : bytes :=
  match s with
  | EmptyString => []
  | String c s' => (encode_char c ++ encode s')%list
  end.

(** [str(n)] for an [int], as an f-string formats it. *)
Definition str_of_int (n : Z) : string :=
  DecimalString.NilZero.string_of_int (Z.to_int n).

(** [hex(n)] *)
Definition hex (n : Z) : string :=
  (if n <? 0 then "-0x" else "0x")
  ++ HexadecimalString.NilZero.string_of_uint (N.to_hex_uint (Z.abs_N n)).

(* ===================================================================== *)
(** ** The fragment of [re] that [__init__] uses *)
(* ===================================================================== *)

Module Re.

(** One character matcher: a literal or [\d]. *)
Inductive Atom :=
| Lit (c : ascii)
| Digit.

(** Pattern items: [^], [$], and [a{lo,hi}] (a plain atom is [a{1,1}]). *)
Inductive Item :=
| Bol
| Eol
| Rep (a : Atom) (lo hi : nat).

Definition Pattern := list Item.

Definition is_digit (c : ascii) : bool :=
  let n := N_of_ascii c in ((48 <=? n) && (n <=? 57))%N.

Definition atom_matches (a : Atom) (c : ascii) : bool :=
  match a with
  | Lit c' => Ascii.eqb c' c
  | Digit => is_digit c
  end.

Definition newline : ascii := "010"%char.

(** [$] without MULTILINE: at the end of the string, or just before a
    newline that is the last character. *)
Definition at_eol (s : string) : bool :=
  match s with
  | EmptyString => true
  | String c EmptyString => Ascii.eqb c newline
  | _ => false
  end.

(** [a{lo,hi}] followed by the continuation [k]; [pos] is the offset
    of [s] in the subject. *)
Fixpoint match_rep (a : Atom) (lo hi : nat) (k : nat -> string -> bool)
         (pos : nat) (s : string) : bool :=
  match hi with
  | O => Nat.eqb lo 0 && k pos s
  | S hi' =>
      match s with
      | String c s' =>
          atom_matches a c && match_rep a (Nat.pred lo) hi' k (S pos) s'
      | EmptyString => false
      end
      || (Nat.eqb lo 0 && k pos s)
  end.

(** Does the pattern match at offset [pos], where [s] is the rest of
    the subject? *)
Fixpoint match_here (p : Pattern) (pos : nat) (s : string) : bool :=
  match p with
  | [] => true
  | Bol :: p' => Nat.eqb pos 0 && match_here p' pos s
  | Eol :: p' => at_eol s && match_here p' pos s
  | Rep a lo hi :: p' => match_rep a lo hi (match_here p') pos s
  end.

Fixpoint search_from (p : Pattern) (pos : nat) (s : string) : bool :=
  match_here p pos s
  || match s with
     | String _ s' => search_from p (S pos) s'
     | EmptyString => false
     end.

(** [p.search(s)], as a truth value. *)
Definition search (p : Pattern) (s : string) : bool := search_from p 0 s.

Definition lit (c : ascii) : Item := Rep (Lit c) 1 1.

End Re.

(** [re.compile('^cuda:\d{1,2}$')] *)
Definition cuda_pattern : Re.Pattern :=
  [Re.Bol; Re.lit "c"; Re.lit "u"; Re.lit "d"; Re.lit "a"; Re.lit ":";
   Re.Rep Re.Digit 1 2; Re.Eol].

(* ===================================================================== *)
(** ** Python values held by a parameter object *)
(* ===================================================================== *)

(** What a ctypes field reads as: [int], [bool] or [bytes]. *)
Inductive PyVal :=
| VInt (z : Z)
| VBool (b : bool)
| VBytes (b : bytes).

Definition int_of_bool (b : bool) : Z := if b then 1 else 0.

Definition bytes_eqb (a b : bytes) : bool :=
  if list_eq_dec Byte.byte_eq_dec a b then true else false.

(** [x == y]: [bool] is a subtype of [int]; [bytes] equals only [bytes]. *)
Definition py_eq (x y : PyVal) : bool :=
  match x, y with
  | VInt a, VInt b => a =? b
  | VInt a, VBool b => a =? int_of_bool b
  | VBool a, VInt b => int_of_bool a =? b
  | VBool a, VBool b => Bool.eqb a b
  | VBytes a, VBytes b => bytes_eqb a b
  | _, _ => false
  end.

(** [x in l] *)
Definition py_in (x : PyVal) (l : list PyVal) : bool := existsb (py_eq x) l.

(** An instance of [CCodecParams], seen through [dir], [getattr] and
    attribute assignment: its attribute names, in [dir] order, with their
    values. *)
Definition CCodecParams := list (string * PyVal).

Definition dir (o : CCodecParams) : list string := map fst o.

Fixpoint getattr (o : CCodecParams) (name : string) : option PyVal :=
  match o with
  | [] => None
  | (n, v) :: o' => if String.eqb n name then Some v else getattr o' name
  end.

(** [o.name = v] on an existing attribute. *)
Fixpoint setattr (o : CCodecParams) (name : string) (v : PyVal) : CCodecParams :=
  match o with
  | [] => []
  | (n, x) :: o' =>
      if String.eqb n name then (n, v) :: o' else (n, x) :: setattr o' name v
  end.

(** [l.remove(x)]: drops the first occurrence; [None] when there is none
    (Python raises ValueError). *)
Fixpoint list_remove (x : string) (l : list string) : option (list string) :=
  match l with
  | [] => None
  | y :: l' =>
      if String.eqb y x then Some l'
      else option_map (cons y) (list_remove x l')
  end.

(** A number as a session attribute: an [int], or the engine's float. *)
Inductive PyNum (F : Type) :=
| NInt (z : Z)
| NFloat (f : F).
Arguments NInt {F} z.
Arguments NFloat {F} f.

(** An array as [encode_one_frame] uses it: only [tobytes] is called,
    which gives the elements in row-major order. *)
Record ndarray := {
  shape : list nat;
  itemsize : nat;
  c_order_data : bytes
}.

Definition tobytes (a : ndarray) : bytes := c_order_data a.

(** The [rgb_image] argument of [encode_one_frame], by its [type()]:
    [bytes], [numpy.ndarray], or a PIL image object. *)
Inductive RgbImage :=
| img_bytes (b : bytes)
| img_ndarray (a : ndarray)
| img_pil (width height : nat) (pixels : bytes).

(* ===================================================================== *)
(** ** Enumerations of [ffio_c] *)
(* ===================================================================== *)

Inductive FFIOMode := DECODE | ENCODE.

Definition FFIOMode_eqb (a b : FFIOMode) : bool :=
  match a, b with
  | DECODE, DECODE | ENCODE, ENCODE => true
  | _, _ => false
  end.

(** [m.name] *)
Definition FFIOMode_name (m : FFIOMode) : string :=
  match m with DECODE => "DECODE" | ENCODE => "ENCODE" end.

(** The [mode] argument: an [FFIOMode] or a [str]. *)
Inductive ModeArg :=
| mode_enum (m : FFIOMode)
| mode_str (s : string).

(* ===================================================================== *)
(** ** Exceptions, traces and the monad of the methods *)
(* ===================================================================== *)

Inductive Exn :=
| ValueError (msg : string)
| AttributeError (msg : string)
| NullHandle.  (* the engine entered with a NULL handle: not defined here *)

Inductive Result (A : Type) :=
| Ok (a : A)
| Raise (e : Exn).
Arguments Ok {A} a.
Arguments Raise {A} e.

(** The arguments of one [api_initFFIO] call, after the handle. *)
Record InitArgs := {
  ia_mode : Z;
  ia_url : bytes;
  ia_hw_enabled : bool;
  ia_pix_fmt_hw_enabled : bool;
  ia_hw_device : bytes;
  ia_shm_enabled : bool;
  ia_shm_name : bytes;
  ia_shm_size : Z;
  ia_shm_offset : Z;
  ia_codec_params : CCodecParams
}.

(* ===================================================================== *)
(** ** The engine interface: what [ffio.py] imports from [ffio.ffio_c] *)
(* ===================================================================== *)

(** The structs are opaque but for the fields the wrapper reads. Every
    entry point takes the engine object behind the handle and gives it
    back as the engine left it. *)
Class ffio_c := {
  CFFIO : Type;                    (* struct FFIO behind [_c_ffio_ptr] *)
  CFFIOFrame : Type;
  c_float : Type;
  ffio_state : CFFIO -> Z;
  image_width : CFFIO -> Z;
  image_height : CFFIO -> Z;
  c_framerate : CFFIO -> PyNum c_float;
  frame_seq : CFFIO -> Z;
  CFFIOFrame__bool__ : CFFIOFrame -> bool;
  FFIO_PTS_TRICK_EVEN : Z;         (* FFIOPTSTrick.FFIO_PTS_TRICK_EVEN.value *)
  FFIO_PTS_TRICK_INCREASE : Z;
  CCodecParams_new : CCodecParams; (* CCodecParams() *)
  platform_system : string;        (* platform.system() *)
  api_newFFIO : CFFIO;
  api_initFFIO : CFFIO -> InitArgs -> CFFIO * CCodecParams;
  api_deleteFFIO : CFFIO -> CFFIO;
  api_finalizeFFIO : CFFIO -> CFFIO;
  api_decodeOneFrame : CFFIO -> option bytes -> CFFIO * CFFIOFrame;
  api_decodeOneFrameToShm : CFFIO -> Z -> option bytes -> CFFIO * CFFIOFrame;
  api_encodeOneFrame : CFFIO -> bytes -> option bytes -> Z -> CFFIO * Z;
  api_encodeOneFrameFromShm : CFFIO -> Z -> option bytes -> Z -> CFFIO * Z
}.

(** Console output, without the elapsed times. *)
Inductive Msg :=
| msg_pix_fmt_warning (mode_name : string)
| msg_inited (mode_name : string)
| msg_open_stream (mode_name : string) (w h : Z)
| msg_failed (mode_name : string).

Section Wrapper.

Context {E : ffio_c}.

Inductive Event :=
| ev_print (m : Msg)
| ev_newFFIO
| ev_initFFIO (a : InitArgs) (opened : CFFIO)  (* [opened]: the object after the call *)
| ev_deleteFFIO
| ev_finalizeFFIO
| ev_decodeOneFrame (sei_filter : option bytes)
| ev_decodeOneFrameToShm (offset : Z) (sei_filter : option bytes)
| ev_encodeOneFrame (rgb_image : bytes) (sei_msg : option bytes) (sei_msg_size : Z)
| ev_encodeOneFrameFromShm (offset : Z) (sei_msg : option bytes) (sei_msg_size : Z).

Definition Trace := list Event.

(** Is the event a call into the engine? *)
Definition is_engine_call (e : Event) : bool :=
  match e with ev_print _ => false | _ => true end.

(** A computation: from the trace so far to a result and the new trace. *)
Definition M (A : Type) := Trace -> Result A * Trace.

Definition ret {A} (a : A) : M A := fun t => (Ok a, t).
Definition raise {A} (e : Exn) : M A := fun t => (Raise e, t).
Definition bind {A B} (c : M A) (k : A -> M B) : M B :=
  fun t => match c t with
           | (Ok a, t') => k a t'
           | (Raise e, t') => (Raise e, t')
           end.
Definition lift {A} (r : Result A) : M A := fun t => (r, t).
Definition emit (e : Event) : M unit := fun t => (Ok tt, t ++ [e])%list.

Definition bindR {A B} (r : Result A) (k : A -> Result B) : Result B :=
  match r with Ok a => k a | Raise e => Raise e end.

End Wrapper.

Notation "x <- c ;; k" := (bind c (fun x => k))
  (at level 61, c at next level, right associativity).
Notation "c ;;; k" := (bind c (fun _ => k))
  (at level 61, right associativity).
Notation "x <~ c ;; k" := (bindR c (fun x => k))
  (at level 61, c at next level, right associativity).

Section Session.

Context {E : ffio_c}.

(** *** The engine entry points, traced *)

Definition print (m : Msg) : M unit := emit (ev_print m).

Definition c_lib_api_newFFIO : M CFFIO :=
  emit ev_newFFIO ;;; ret api_newFFIO.

Definition c_lib_api_initFFIO (ptr : CFFIO) (a : InitArgs) : M (CFFIO * CCodecParams) :=
  let r := api_initFFIO ptr a in
  emit (ev_initFFIO a (fst r)) ;;; ret r.

Definition c_lib_api_deleteFFIO (ptr : CFFIO) : M CFFIO :=
  emit ev_deleteFFIO ;;; ret (api_deleteFFIO ptr).

Definition c_lib_api_finalizeFFIO (ptr : CFFIO) : M CFFIO :=
  emit ev_finalizeFFIO ;;; ret (api_finalizeFFIO ptr).

Definition c_lib_api_decodeOneFrame (ptr : CFFIO) (sei : option bytes) : M (CFFIO * CFFIOFrame) :=
  emit (ev_decodeOneFrame sei) ;;; ret (api_decodeOneFrame ptr sei).

Definition c_lib_api_decodeOneFrameToShm (ptr : CFFIO) (offset : Z) (sei : option bytes)
  : M (CFFIO * CFFIOFrame) :=
  emit (ev_decodeOneFrameToShm offset sei) ;;; ret (api_decodeOneFrameToShm ptr offset sei).

Definition c_lib_api_encodeOneFrame (ptr : CFFIO) (img : bytes) (sei : option bytes) (n : Z)
  : M (CFFIO * Z) :=
  emit (ev_encodeOneFrame img sei n) ;;; ret (api_encodeOneFrame ptr img sei n).

Definition c_lib_api_encodeOneFrameFromShm (ptr : CFFIO) (offset : Z) (sei : option bytes) (n : Z)
  : M (CFFIO * Z) :=
  emit (ev_encodeOneFrameFromShm offset sei n) ;;; ret (api_encodeOneFrameFromShm ptr offset sei n).

(** *** class FFIO *)

(** The attributes of an instance. [hw_device_attr] is the instance
    attribute [hw_device]; while it is unset, reading [self.hw_device]
    gives the class attribute. [_c_ffio_ptr] holds the engine object the
    pointer leads to, [None] once the reference is dropped. *)
Record FFIO := {
  _c_ffio_ptr : option CFFIO;
  target_url : option string;
  mode : FFIOMode;
  frame_seq_py : Z;
  shm_enabled : bool;
  width : Z;
  height : Z;
  framerate : PyNum c_float;
  codec_params : option CCodecParams;
  hw_enabled : bool;
  hw_device_attr : option string;
  pix_fmt_hw_enabled : bool
}.

(** The class attribute:
    ["cuda" if platform.system() != 'Darwin' else "videotoolbox"]. *)
Definition FFIO_hw_device : string :=
  if negb (String.eqb platform_system "Darwin") then "cuda" else "videotoolbox".

Definition attr_hw_device (instance_attr : option string) : string :=
  match instance_attr with
  | Some d => d
  | None => FFIO_hw_device
  end.

(** [self.hw_device] *)
Definition hw_device (self : FFIO) : string := attr_hw_device (hw_device_attr self).

Definition with_ptr (self : FFIO) (p : option CFFIO) : FFIO :=
  {| _c_ffio_ptr := p; target_url := target_url self; mode := mode self;
     frame_seq_py := frame_seq_py self; shm_enabled := shm_enabled self;
     width := width self; height := height self; framerate := framerate self;
     codec_params := codec_params self; hw_enabled := hw_enabled self;
     hw_device_attr := hw_device_attr self;
     pix_fmt_hw_enabled := pix_fmt_hw_enabled self |}.

Definition with_frame_seq_py (self : FFIO) (n : Z) : FFIO :=
  {| _c_ffio_ptr := _c_ffio_ptr self; target_url := target_url self; mode := mode self;
     frame_seq_py := n; shm_enabled := shm_enabled self;
     width := width self; height := height self; framerate := framerate self;
     codec_params := codec_params self; hw_enabled := hw_enabled self;
     hw_device_attr := hw_device_attr self;
     pix_fmt_hw_enabled := pix_fmt_hw_enabled self |}.

(** The engine object behind [self._c_ffio_ptr], to pass to the engine. *)
Definition handle (self : FFIO) : M CFFIO :=
  match _c_ffio_ptr self with
  | Some p => ret p
  | None => raise NullHandle
  end.

(** *** [__init__], lines 48-56: the mode *)
Definition init_mode (mode : ModeArg) : Result FFIOMode :=
  match mode with
  | mode_str m =>
      if str_in (lower m) ["encoder"; "encode"] then Ok ENCODE
      else if str_in (lower m) ["decoder"; "decode"] then Ok DECODE
      else Raise (ValueError ("the kwarg `mode`=" ++ m ++ " is invalid."))
  | mode_enum m => Ok m
  end.

Definition restricted_values : list PyVal :=
  [VInt 0; VInt (-1); VBytes []; VBool true; VBool false].

Definition restrict_msg : string :=
  "`codec_params` should restrict most params when `mode` is FFIOMode.DECODE".

(** The loop of lines 63-65. *)
Fixpoint check_params (codec_params : CCodecParams) (params : list string) : Result unit :=
  match params with
  | [] => Ok tt
  | param :: rest =>
      match getattr codec_params param with
      | None => Raise (AttributeError param)
      | Some v =>
          if negb (py_in v restricted_values) then Raise (ValueError restrict_msg)
          else check_params codec_params rest
      end
  end.

Definition remove (x : string) (l : list string) : Result (list string) :=
  match list_remove x l with
  | Some l' => Ok l'
  | None => Raise (ValueError "list.remove(x): x not in list")
  end.

(** *** [__init__], lines 58-65: a decoder's parameters *)
Definition init_check_codec_params (self_mode : FFIOMode)
           (codec_params : option CCodecParams) : Result unit :=
  match codec_params with
  | Some cp =>
      if FFIOMode_eqb self_mode DECODE then
        let params := filter (fun name => negb (startswith name "_")) (dir cp) in
        params <~ remove "flags" params ;;
        params <~ remove "flags2" params ;;
        params <~ remove "sei_uuid" params ;;
        check_params cp params
      else Ok tt
  | None => Ok tt
  end.

(** *** [__init__], lines 69-78: the instance attribute [hw_device] *)
Definition init_hw_device (hw_device : string) : Result (option string) :=
  if len hw_device >? 0 then
    if String.eqb (lower hw_device) "cuda" then Ok (Some "cuda:0")
    else if Re.search cuda_pattern hw_device then Ok (Some hw_device)
    else Raise (ValueError "`hw_device` should be set as bool or string like `cuda:0`")
  else Ok None.

(** *** [_auto_set_pts_trick], lines 270-277 *)
Definition _auto_set_pts_trick (target_url : string) (codec_params : CCodecParams)
  : Result CCodecParams :=
  match getattr codec_params "pts_trick" with
  | None => Raise (AttributeError "pts_trick")
  | Some v =>
      if py_eq v (VInt (-1)) then
        if startswith target_url "rtmp://" || startswith target_url "rtsp://"
           || startswith target_url "srt://"
        then Ok (setattr codec_params "pts_trick" (VInt FFIO_PTS_TRICK_EVEN))
        else Ok (setattr codec_params "pts_trick" (VInt FFIO_PTS_TRICK_INCREASE))
      else Ok codec_params
  end.

(** *** [__init__], lines 95-115: the arguments of [api_initFFIO] *)
Definition init_args (self_mode : FFIOMode) (self_target_url : string)
           (hw_enabled pix_fmt_hw_enabled : bool) (self_hw_device : string)
           (shm_name : option string) (shm_size shm_offset : Z)
           (self_codec_params : CCodecParams) : InitArgs :=
  let int_mode := if FFIOMode_eqb self_mode DECODE then 0 else 1 in
  match shm_name with
  | None =>
      {| ia_mode := int_mode; ia_url := encode self_target_url;
         ia_hw_enabled := hw_enabled; ia_pix_fmt_hw_enabled := pix_fmt_hw_enabled;
         ia_hw_device := encode self_hw_device;
         ia_shm_enabled := false; ia_shm_name := encode "";
         ia_shm_size := 0; ia_shm_offset := 0;
         ia_codec_params := self_codec_params |}
  | Some name =>
      {| ia_mode := int_mode; ia_url := encode self_target_url;
         ia_hw_enabled := hw_enabled; ia_pix_fmt_hw_enabled := pix_fmt_hw_enabled;
         ia_hw_device := encode self_hw_device;
         ia_shm_enabled := true; ia_shm_name := encode name;
         ia_shm_size := shm_size; ia_shm_offset := shm_offset;
         ia_codec_params := self_codec_params |}
  end.

(** *** [__init__] *)
Definition __init__ (target_url : string) (mode : ModeArg)
           (hw_enabled pix_fmt_hw_enabled : bool) (hw_device : string)
           (shm_name : option string) (shm_size shm_offset : Z)
           (codec_params : option CCodecParams) : M FFIO :=
  self_mode <- lift (init_mode mode) ;;
  lift (init_check_codec_params self_mode codec_params) ;;;
  self_hw_device <- lift (init_hw_device hw_device) ;;
  let self_frame_seq_py := 0 in
  let self_codec_params :=
    match codec_params with Some cp => cp | None => CCodecParams_new end in
  self_codec_params <- lift (_auto_set_pts_trick target_url self_codec_params) ;;
  ptr <- c_lib_api_newFFIO ;;
  pix_fmt_hw_enabled' <-
    (if pix_fmt_hw_enabled && negb hw_enabled then
       print (msg_pix_fmt_warning (FFIOMode_name self_mode)) ;;; ret false
     else ret pix_fmt_hw_enabled) ;;
  r <- c_lib_api_initFFIO ptr
         (init_args self_mode target_url hw_enabled pix_fmt_hw_enabled'
                    (attr_hw_device self_hw_device)
                    shm_name shm_size shm_offset self_codec_params) ;;
  let ptr := fst r in
  let self_codec_params := snd r in
  let self_shm_enabled := match shm_name with None => false | Some _ => true end in
  if ffio_state ptr =? 1 then
    print (msg_inited (FFIOMode_name self_mode)) ;;;
    print (msg_open_stream (FFIOMode_name self_mode) (image_width ptr) (image_height ptr)) ;;;
    ret {| _c_ffio_ptr := Some ptr; target_url := Some target_url; mode := self_mode;
           frame_seq_py := self_frame_seq_py; shm_enabled := self_shm_enabled;
           width := image_width ptr; height := image_height ptr;
           framerate := c_framerate ptr;
           codec_params := Some self_codec_params; hw_enabled := hw_enabled;
           hw_device_attr := self_hw_device;
           pix_fmt_hw_enabled := pix_fmt_hw_enabled |}
  else
    print (msg_failed (FFIOMode_name self_mode)) ;;;
    ptr <- c_lib_api_deleteFFIO ptr ;;
    ret {| _c_ffio_ptr := Some ptr; target_url := Some target_url; mode := self_mode;
           frame_seq_py := self_frame_seq_py; shm_enabled := self_shm_enabled;
           width := 0; height := 0; framerate := NInt 0;
           codec_params := Some self_codec_params; hw_enabled := hw_enabled;
           hw_device_attr := self_hw_device;
           pix_fmt_hw_enabled := pix_fmt_hw_enabled |}.

(** *** [__bool__], lines 148-152 *)
Definition __bool__ (self : FFIO) : Result bool :=
  match _c_ffio_ptr self with
  | Some contents =>
      let state := ffio_state contents in
      Ok (if (state =? 1) || (state =? 2) then true else false)
  | None => Raise (AttributeError "contents")
  end.

(** *** [__repr__], lines 136-146; [id_self] is [id(self)] *)
Definition __repr__ (self : FFIO) (id_self : Z) : Result string :=
  let mode := if FFIOMode_eqb (mode self) DECODE then "decoder" else "encoder" in
  valid <~ __bool__ self ;;
  if valid then
    let shm_enabled := if shm_enabled self then "shm_enabled" else "shm_disabled" in
    let hw_enabled := if hw_enabled self then "hw_enabled" else "hw_disabled" in
    let pix_fmt_hw_enabled :=
      if pix_fmt_hw_enabled self then "pix_fmt_hw_enabled" else "pix_fmt_hw_disabled" in
    Ok ("<ffio.ffio.FFIO, valid " ++ mode ++ ", "
        ++ str_of_int (width self) ++ "x" ++ str_of_int (height self) ++ ", "
        ++ shm_enabled ++ ", " ++ hw_enabled ++ ", " ++ pix_fmt_hw_enabled
        ++ " at " ++ hex id_self ++ ">")
  else
    Ok ("<ffio.ffio.FFIO, invalid " ++ mode ++ " at " ++ hex id_self ++ ">").

(** *** The properties [fps] and [frame_seq_c], lines 158-164. The
    property [ffio_state] of the class is [__bool__]. *)
Definition fps (self : FFIO) : PyNum c_float := framerate self.

Definition frame_seq_c (self : FFIO) : Result Z :=
  match _c_ffio_ptr self with
  | Some contents => Ok (frame_seq contents)
  | None => Raise (AttributeError "contents")
  end.

(** *** [decode_one_frame], lines 166-191 *)
Definition decode_one_frame (self : FFIO) (sei_filter : option string)
  : M (CFFIOFrame * FFIO) :=
  let sei_filter_bytes := option_map encode sei_filter in
  ptr <- handle self ;;
  r <- c_lib_api_decodeOneFrame ptr sei_filter_bytes ;;
  let self := with_ptr self (Some (fst r)) in
  let ret_contents := snd r in
  let self :=
    if CFFIOFrame__bool__ ret_contents
    then with_frame_seq_py self (frame_seq_py self + 1) else self in
  ret (ret_contents, self).

(** *** [decode_one_frame_to_shm], lines 193-203 *)
Definition decode_one_frame_to_shm (self : FFIO) (offset : Z) (sei_filter : option string)
  : M (CFFIOFrame * FFIO) :=
  let sei_filter_bytes := option_map encode sei_filter in
  ptr <- handle self ;;
  r <- c_lib_api_decodeOneFrameToShm ptr offset sei_filter_bytes ;;
  let self := with_ptr self (Some (fst r)) in
  let ret_contents := snd r in
  let self :=
    if CFFIOFrame__bool__ ret_contents
    then with_frame_seq_py self (frame_seq_py self + 1) else self in
  ret (ret_contents, self).

(** [len(sei_msg_bytes)+1 if sei_msg is not None else 0] *)
Definition sei_size (sei_msg_bytes : option bytes) : Z :=
  match sei_msg_bytes with
  | Some b => Z.of_nat (List.length b) + 1
  | None => 0
  end.

(** Only an array is converted and resubmitted. *)
Definition conversions_left (rgb_image : RgbImage) : nat :=
  match rgb_image with img_ndarray _ => 1%nat | _ => 0%nat end.

(** *** [encode_one_frame], lines 205-242

    An image object passes neither the [is bytes] nor the [== np.ndarray]
    test; whether or not [== Image] holds for it, the answer is [False]
    (line 240 or line 242). *)
Equations encode_one_frame (self : FFIO) (rgb_image : RgbImage) (sei_msg : option string)
  : M (bool * FFIO) by wf (conversions_left rgb_image) lt :=
  encode_one_frame self (img_bytes rgb_image) sei_msg :=
    (let sei_msg_bytes := option_map encode sei_msg in
     let sei_msg_size := sei_size sei_msg_bytes in
     ptr <- handle self ;;
     r <- c_lib_api_encodeOneFrame ptr rgb_image sei_msg_bytes sei_msg_size ;;
     let self := with_ptr self (Some (fst r)) in
     if snd r =? 0 then
       ret (true, with_frame_seq_py self (frame_seq_py self + 1))
     else ret (false, self));
  encode_one_frame self (img_ndarray rgb_image) sei_msg :=
    (let rgb_image_bytes := tobytes rgb_image in
     encode_one_frame self (img_bytes rgb_image_bytes) sei_msg);
  encode_one_frame self (img_pil _ _ _) sei_msg := ret (false, self).

(** *** [encode_one_frame_from_shm], lines 244-257: returns the engine's
    result itself *)
Definition encode_one_frame_from_shm (self : FFIO) (offset : Z) (sei_msg : option string)
  : M (Z * FFIO) :=
  let sei_msg_bytes := option_map encode sei_msg in
  let sei_msg_size := sei_size sei_msg_bytes in
  ptr <- handle self ;;
  r <- c_lib_api_encodeOneFrameFromShm ptr offset sei_msg_bytes sei_msg_size ;;
  let self := with_ptr self (Some (fst r)) in
  let ret_ := snd r in
  let self :=
    if negb (ret_ =? 0)
    then with_frame_seq_py self (frame_seq_py self + 1) else self in
  ret (ret_, self).

(** *** [release_memory], lines 259-268 *)
Definition release_memory (self : FFIO) : M FFIO :=
  ptr <- handle self ;;
  ptr <- c_lib_api_finalizeFFIO ptr ;;
  c_lib_api_deleteFFIO ptr ;;;
  ret {| _c_ffio_ptr := None; target_url := None; mode := mode self;
         frame_seq_py := 0; shm_enabled := shm_enabled self;
         width := 0; height := 0; framerate := framerate self;
         codec_params := None; hw_enabled := hw_enabled self;
         hw_device_attr := hw_device_attr self;
         pix_fmt_hw_enabled := pix_fmt_hw_enabled self |}.

End Session.

(* ===================================================================== *)
(** ** A scripted engine, to run the wrapper on concrete inputs *)
(* ===================================================================== *)

Module Scripted.

(** The engine object: its state code, the stream's size, its frame
    counter. *)
Record Obj := { st : Z; w : Z; h : Z; seq : Z }.

Definition default_params : CCodecParams :=
  [("bitrate", VInt 0); ("flags", VInt 0); ("flags2", VInt 0); ("gop", VInt 0);
   ("pts_trick", VInt (-1)); ("sei_uuid", VBytes []);
   ("use_h264_AnnexB_sei", VBool true)].

(** An engine that answers every open with state code [open_state] on a
    640x480 stream at 25 frames per second, every decode with a frame of
    truth value [frame_ok], every [api_encodeOneFrame] with [status] and
    every [api_encodeOneFrameFromShm] with [shm_result]. Deleting leaves
    the object's memory as it is. *)
Definition engine (open_state : Z) (frame_ok : bool) (status shm_result : Z)
  : ffio_c := {|
  CFFIO := Obj;
  CFFIOFrame := bool;
  c_float := Z;
  ffio_state := st;
  image_width := w;
  image_height := h;
  c_framerate := fun _ => NFloat 25;
  frame_seq := seq;
  CFFIOFrame__bool__ := fun f => f;
  FFIO_PTS_TRICK_EVEN := 0;
  FFIO_PTS_TRICK_INCREASE := 1;
  CCodecParams_new := default_params;
  platform_system := "Linux";
  api_newFFIO := {| st := 0; w := 0; h := 0; seq := 0 |};
  api_initFFIO := fun o a =>
    ({| st := open_state; w := 640; h := 480; seq := 0 |}, ia_codec_params a);
  api_deleteFFIO := fun o => o;
  api_finalizeFFIO := fun o => o;
  api_decodeOneFrame := fun o _ =>
    ({| st := 2; w := w o; h := h o; seq := seq o + 1 |}, frame_ok);
  api_decodeOneFrameToShm := fun o _ _ =>
    ({| st := 2; w := w o; h := h o; seq := seq o + 1 |}, frame_ok);
  api_encodeOneFrame := fun o _ _ _ =>
    ({| st := 2; w := w o; h := h o; seq := seq o + 1 |}, status);
  api_encodeOneFrameFromShm := fun o _ _ _ =>
    ({| st := 2; w := w o; h := h o; seq := seq o + 1 |}, shm_result)
|}.

End Scripted.

(** The outcome of a computation started on the empty trace. *)
Definition run {E : ffio_c} {A} (c : M A) : Result A * Trace := c [].

Definition result_of {E : ffio_c} {A} (c : M A) : Result A := fst (run c).
Definition trace_of {E : ffio_c} {A} (c : M A) : Trace := snd (run c).

(** The engine calls of a trace, and its [api_initFFIO] calls. *)
Definition engine_calls {E : ffio_c} (t : Trace) : Trace := filter is_engine_call t.

Definition init_calls {E : ffio_c} (t : Trace) : list (InitArgs * CFFIO) :=
  flat_map (fun e => match e with ev_initFFIO a o => [(a, o)] | _ => [] end) t.

Definition is_delete {E : ffio_c} (e : Event) : bool :=
  match e with ev_deleteFFIO => true | _ => false end.

(** The two state codes that [__bool__] accepts. *)
Definition is_open_code (state : Z) : bool := (state =? 1) || (state =? 2).

(* ===================================================================== *)
(** ** The vocabulary of the statements *)
(* ===================================================================== *)

(** The parameter object [__init__] works on: the caller's, or a new one. *)
Definition params_or_new {E : ffio_c} (codec_params : option CCodecParams) : CCodecParams :=
  match codec_params with Some cp => cp | None => CCodecParams_new end.

(** The flag handed to the engine after the check of lines 86-93. *)
Definition passed_pix_fmt (hw_enabled pix_fmt_hw_enabled : bool) : bool :=
  if pix_fmt_hw_enabled && negb hw_enabled then false else pix_fmt_hw_enabled.

(** Equality of two strings up to the case of their letters. *)
Definition ci_equal (a b : string) : Prop := lower a = lower b.

(** The three names that the check leaves out. *)
Definition dont_care (name : string) : bool :=
  str_in name ["flags"; "flags2"; "sei_uuid"].

(** A value at the zero, empty or false default. *)
Definition is_default (v : PyVal) : bool :=
  match v with
  | VInt 0 => true
  | VBool false => true
  | VBytes [] => true
  | _ => false
  end.

(** [url] is [scheme] followed by anything. *)
Definition has_scheme (url scheme : string) : Prop :=
  exists rest, url = scheme ++ rest.

(** The targets of the live transports. *)
Definition live_url (url : string) : Prop :=
  has_scheme url "rtmp://" \/ has_scheme url "rtsp://" \/ has_scheme url "srt://".

(** The truth value of an engine result, as [if ret:] reads it. *)
Definition truthy (r : Z) : bool := negb (r =? 0).

(** The session after an engine call that left the engine object [p']:
    counted when [ok], untouched otherwise. *)
Definition after_call {E : ffio_c} (self : FFIO) (p' : CFFIO) (ok : bool) : FFIO :=
  if ok then with_frame_seq_py (with_ptr self (Some p')) (frame_seq_py self + 1)
  else with_ptr self (Some p').

(** "cuda:" and one or two decimal digits, nothing else. *)
Definition numbered_cuda (s : string) : Prop :=
  exists d1, Re.is_digit d1 = true /\
    (s = "cuda:" ++ String d1 EmptyString \/
     exists d2, Re.is_digit d2 = true /\
       s = "cuda:" ++ String d1 (String d2 EmptyString)).

(** One line feed. *)
Definition line_feed : string := String Re.newline EmptyString.

(** One frame call of a caller's loop. *)
Inductive Op :=
| op_decode (sei_filter : option string)
| op_decode_to_shm (offset : Z) (sei_filter : option string)
| op_encode (rgb_image : RgbImage) (sei_msg : option string)
| op_encode_from_shm (offset : Z) (sei_msg : option string).

(** The call, with the truth value of what it returns. *)
Definition do_op {E : ffio_c} (self : FFIO) (o : Op) : M (bool * FFIO) :=
  match o with
  | op_decode f =>
      r <- decode_one_frame self f ;; ret (CFFIOFrame__bool__ (fst r), snd r)
  | op_decode_to_shm off f =>
      r <- decode_one_frame_to_shm self off f ;; ret (CFFIOFrame__bool__ (fst r), snd r)
  | op_encode img sei => encode_one_frame self img sei
  | op_encode_from_shm off sei =>
      r <- encode_one_frame_from_shm self off sei ;; ret (truthy (fst r), snd r)
  end.

(** The calls one after the other on the same session, whatever each
    returns. *)
Fixpoint do_ops {E : ffio_c} (self : FFIO) (ops : list Op) : M (list bool * FFIO) :=
  match ops with
  | [] => ret ([], self)
  | o :: ops' =>
      r <- do_op self o ;;
      rs <- do_ops (snd r) ops' ;;
      ret (fst r :: fst rs, snd rs)
  end.

(** How many of the results are truthy. *)
Definition successes (results : list bool) : Z :=
  Z.of_nat (List.length (filter (fun b => b) results)).

(** Is the event a teardown call? *)
Definition is_teardown {E : ffio_c} (e : Event) : bool :=
  match e with ev_deleteFFIO | ev_finalizeFFIO => true | _ => false end.

(** Is the event the warning of lines 87-88? *)
Definition is_pix_fmt_warning {E : ffio_c} (e : Event) : bool :=
  match e with ev_print (msg_pix_fmt_warning _) => true | _ => false end.

(** Two sessions that differ at most in the engine object and the frame
    counter. *)
Definition same_settings {E : ffio_c} (a b : FFIO) : Prop :=
  target_url a = target_url b /\ mode a = mode b /\
  shm_enabled a = shm_enabled b /\ width a = width b /\ height a = height b /\
  framerate a = framerate b /\ codec_params a = codec_params b /\
  hw_enabled a = hw_enabled b /\ hw_device_attr a = hw_device_attr b /\
  pix_fmt_hw_enabled a = pix_fmt_hw_enabled b.

(** The message of the device check, line 76. *)
Definition hw_device_msg : string :=
  "`hw_device` should be set as bool or string like `cuda:0`".

(** The names that the loop of lines 63-65 goes through: the public
    names of [dir], less the three removed ones. *)
Definition checked_params (cp : CCodecParams) : Result (list string) :=
  let params := filter (fun name => negb (startswith name "_")) (dir cp) in
  params <~ remove "flags" params ;;
  params <~ remove "flags2" params ;;
  remove "sei_uuid" params.

(* ===================================================================== *)
(** ** Concrete inputs *)
(* ===================================================================== *)

Module C2_inputs.

(** Every attribute at zero, empty or false, but [bitrate]. *)
Definition with_bitrate (z : Z) : CCodecParams :=
  [("bitrate", VInt z); ("flags", VInt 0); ("flags2", VInt 0); ("gop", VInt 0);
   ("pts_trick", VInt 0); ("sei_uuid", VBytes []);
   ("use_h264_AnnexB_sei", VBool false)].

End C2_inputs.

Module Sessions.
Import Scripted.

(** An open session on the scripted engine, with [n] frames counted. *)
Definition opened (E : ffio_c) (p : CFFIO) (m : FFIOMode) (n : Z) : FFIO :=
  {| _c_ffio_ptr := Some p; target_url := Some "file.mp4"; mode := m;
     frame_seq_py := n; shm_enabled := false; width := 640; height := 480;
     framerate := NInt 25; codec_params := Some default_params;
     hw_enabled := false; hw_device_attr := None; pix_fmt_hw_enabled := false |}.

Definition stream : Obj := {| st := 1; w := 640; h := 480; seq := 0 |}.

End Sessions.

Module Scenarios.

(** The first scenario: a decoder on an rtsp:// target, no parameters. *)
Definition rtsp_decoder : M FFIO :=
  @__init__ (Scripted.engine 1 true 0 1) "rtsp://cam/1" (mode_str "decode")
            false false "" None 0 0 None.

End Scenarios.

(* ===================================================================== *)
(** ** The scenarios of the specification, run on the scripted engine *)
(* ===================================================================== *)

Example rtsp_pts_trick_even :
  match result_of Scenarios.rtsp_decoder with
  | Ok self => option_map (fun cp => getattr cp "pts_trick") (codec_params self)
  | Raise _ => None
  end = Some (Some (VInt 0)).
Proof. vm_compute. reflexivity. Qed.

Example rtsp_first_frame :
  match result_of (self <- Scenarios.rtsp_decoder ;; decode_one_frame self None) with
  | Ok (frame, self) => Some (frame, frame_seq_py self)
  | Raise _ => None
  end = Some (true, 1).
Proof. vm_compute. reflexivity. Qed.

Example decoder_with_bitrate :
  run (@__init__ (Scripted.engine 1 true 0 1) "file.mp4" (mode_str "decode") false false "" None 0 0
         (Some (setattr Scripted.default_params "bitrate" (VInt 500))))
  = (Raise (ValueError restrict_msg), []).
Proof. vm_compute. reflexivity. Qed.

Example encoder_accepts_frame :
  match result_of (self <- @__init__ (Scripted.engine 1 true 0 1) "out.mp4" (mode_str "encode")
                             false false "" None 0 0 None ;;
                   encode_one_frame self (img_bytes [x00; x01; x02]) None) with
  | Ok (ok, self) => Some (ok, frame_seq_py self)
  | Raise _ => None
  end = Some (true, 1).
Proof. vm_compute. reflexivity. Qed.

(* ===================================================================== *)
(** ** Construction, step by step *)
(* ===================================================================== *)

Ltac unfold_m :=
  unfold handle, print,
    c_lib_api_newFFIO, c_lib_api_initFFIO, c_lib_api_deleteFFIO,
    c_lib_api_finalizeFFIO, c_lib_api_decodeOneFrame, c_lib_api_decodeOneFrameToShm,
    c_lib_api_encodeOneFrame, c_lib_api_encodeOneFrameFromShm in *;
  unfold bind, lift, ret, raise, emit in *.

Section Construction.

Context {E : ffio_c}.

(** A construction that returns has passed the four checks, has called
    [api_newFFIO] and [api_initFFIO] once each, and has filled the
    attributes from the opened engine object. *)
Lemma init_ok_inv url m hw pix dev shm sz off cp t self t' :
  __init__ url m hw pix dev shm sz off cp t = (Ok self, t') ->
  exists sm d cp1,
    init_mode m = Ok sm /\
    init_check_codec_params sm cp = Ok tt /\
    init_hw_device dev = Ok d /\
    _auto_set_pts_trick url (params_or_new cp) = Ok cp1 /\
    let ia := init_args sm url hw (passed_pix_fmt hw pix) (attr_hw_device d)
                        shm sz off cp1 in
    let opened := fst (api_initFFIO api_newFFIO ia) in
    let ready := ffio_state opened =? 1 in
    t' = (t ++ [ev_newFFIO]
            ++ (if pix && negb hw
                then [ev_print (msg_pix_fmt_warning (FFIOMode_name sm))] else [])
            ++ [ev_initFFIO ia opened]
            ++ (if ready
                then [ev_print (msg_inited (FFIOMode_name sm));
                      ev_print (msg_open_stream (FFIOMode_name sm)
                                  (image_width opened) (image_height opened))]
                else [ev_print (msg_failed (FFIOMode_name sm)); ev_deleteFFIO]))%list /\
    mode self = sm /\
    frame_seq_py self = 0 /\
    hw_enabled self = hw /\
    pix_fmt_hw_enabled self = pix /\
    hw_device_attr self = d /\
    target_url self = Some url /\
    codec_params self = Some (snd (api_initFFIO api_newFFIO ia)) /\
    _c_ffio_ptr self = Some (if ready then opened else api_deleteFFIO opened) /\
    width self = (if ready then image_width opened else 0) /\
    height self = (if ready then image_height opened else 0) /\
    framerate self = (if ready then c_framerate opened else NInt 0).
Proof.
  unfold __init__. unfold_m. unfold params_or_new, passed_pix_fmt.
  destruct (init_mode m) as [sm|e] eqn:Hm; [|discriminate].
  destruct (init_check_codec_params sm cp) as [[]|e] eqn:Hc; [|discriminate].
  destruct (init_hw_device dev) as [d|e] eqn:Hd; [|discriminate].
  destruct (_auto_set_pts_trick url _) as [cp1|e] eqn:Hp; [|discriminate].
  intros H. exists sm, d, cp1.
  do 4 (split; [first [reflexivity | assumption]|]).
  destruct (pix && negb hw); cbn in H |- *;
    match type of H with
    | context [ffio_state ?o =? 1] => destruct (ffio_state o =? 1) eqn:Hs
    end;
    cbn in H; inversion H; subst; clear H; cbn; rewrite <- ?app_assoc; cbn;
    repeat split; reflexivity.
Qed.


(** The first failing check decides the exception. *)
Lemma init_mode_raise url m hw pix dev shm sz off cp t e :
  init_mode m = Raise e ->
  __init__ url m hw pix dev shm sz off cp t = (Raise e, t).
Proof. intros H. unfold __init__. unfold_m. rewrite H. reflexivity. Qed.

Lemma init_check_raise url m hw pix dev shm sz off cp t sm e :
  init_mode m = Ok sm ->
  init_check_codec_params sm cp = Raise e ->
  __init__ url m hw pix dev shm sz off cp t = (Raise e, t).
Proof. intros H1 H2. unfold __init__. unfold_m. rewrite H1, H2. reflexivity. Qed.



End Construction.

(* ===================================================================== *)
(** ** The mode argument *)
(* ===================================================================== *)

Lemma str_in_pair x a b : str_in x [a; b] = true <-> x = a \/ x = b.
Proof.
  unfold str_in; cbn. rewrite orb_false_r, orb_true_iff, !String.eqb_eq. tauto.
Qed.

Section Mode.

Context {E : ffio_c}.

Lemma init_mode_decode s :
  ci_equal s "decode" \/ ci_equal s "decoder" -> init_mode (mode_str s) = Ok DECODE.
Proof.
  unfold ci_equal. intros H. cbn in H. unfold init_mode.
  destruct (str_in (lower s) ["encoder"; "encode"]) eqn:He.
  - apply str_in_pair in He. exfalso.
    destruct H as [H|H], He as [He|He]; rewrite H in He; discriminate.
  - destruct (str_in (lower s) ["decoder"; "decode"]) eqn:Hd; [reflexivity|].
    exfalso. assert (Hin : str_in (lower s) ["decoder"; "decode"] = true)
      by (apply str_in_pair; tauto).
    congruence.
Qed.

Lemma init_mode_encode s :
  ci_equal s "encode" \/ ci_equal s "encoder" -> init_mode (mode_str s) = Ok ENCODE.
Proof.
  unfold ci_equal. intros H. cbn in H. unfold init_mode.
  assert (Hin : str_in (lower s) ["encoder"; "encode"] = true)
    by (apply str_in_pair; tauto).
  rewrite Hin. reflexivity.
Qed.

Lemma init_mode_invalid s :
  ~ (ci_equal s "decode" \/ ci_equal s "decoder" \/
     ci_equal s "encode" \/ ci_equal s "encoder") ->
  init_mode (mode_str s)
  = Raise (ValueError ("the kwarg `mode`=" ++ s ++ " is invalid.")).
Proof.
  unfold ci_equal. intros H. cbn in H. unfold init_mode.
  destruct (str_in (lower s) ["encoder"; "encode"]) eqn:He.
  { apply str_in_pair in He. tauto. }
  destruct (str_in (lower s) ["decoder"; "decode"]) eqn:Hd.
  { apply str_in_pair in Hd. tauto. }
  reflexivity.
Qed.

(** C5. A mode string that is "decode" or "decoder" up to case resolves to
    DECODE, and every session constructed with it is a decoder; "encode" or
    "encoder" up to case resolves to ENCODE likewise; with any other string
    construction raises ValueError, before anything has been done. *)
Theorem C5_mode_string s url hw pix dev shm sz off cp t :
  ((ci_equal s "decode" \/ ci_equal s "decoder") ->
   init_mode (mode_str s) = Ok DECODE /\
   forall self t',
     __init__ url (mode_str s) hw pix dev shm sz off cp t = (Ok self, t') ->
     mode self = DECODE) /\
  ((ci_equal s "encode" \/ ci_equal s "encoder") ->
   init_mode (mode_str s) = Ok ENCODE /\
   forall self t',
     __init__ url (mode_str s) hw pix dev shm sz off cp t = (Ok self, t') ->
     mode self = ENCODE) /\
  (~ (ci_equal s "decode" \/ ci_equal s "decoder" \/
      ci_equal s "encode" \/ ci_equal s "encoder") ->
   __init__ url (mode_str s) hw pix dev shm sz off cp t
   = (Raise (ValueError ("the kwarg `mode`=" ++ s ++ " is invalid.")), t)).
Proof.
  split; [|split].
  - intros H. pose proof (init_mode_decode H) as Hm. split; [exact Hm|].
    intros self t' Hi. apply init_ok_inv in Hi.
    destruct Hi as (sm & d & cp1 & Hm' & _ & _ & _ & _ & Hmode & _).
    congruence.
  - intros H. pose proof (init_mode_encode H) as Hm. split; [exact Hm|].
    intros self t' Hi. apply init_ok_inv in Hi.
    destruct Hi as (sm & d & cp1 & Hm' & _ & _ & _ & _ & Hmode & _).
    congruence.
  - intros H. apply init_mode_raise, init_mode_invalid, H.
Qed.

End Mode.

Lemma C5_mode_string_witness :
  init_mode (mode_str "DeCoder") = Ok DECODE /\
  init_mode (mode_str "ENCODE") = Ok ENCODE /\
  __init__ (E := Scripted.engine 1 true 0 1) "file.mp4" (mode_str "play")
           false false "" None 0 0 None []
  = (Raise (ValueError "the kwarg `mode`=play is invalid."), []).
Proof.
  split; [|split].
  - apply (proj1 (C5_mode_string (E := Scripted.engine 1 true 0 1) "DeCoder"
                    "file.mp4" false false "" None 0 0 None [])).
    right. reflexivity.
  - apply (proj1 (proj2 (C5_mode_string (E := Scripted.engine 1 true 0 1) "ENCODE"
                    "file.mp4" false false "" None 0 0 None []))).
    left. reflexivity.
  - apply (proj2 (proj2 (C5_mode_string (E := Scripted.engine 1 true 0 1) "play"
                    "file.mp4" false false "" None 0 0 None []))).
    unfold ci_equal. cbn. intros [H|[H|[H|H]]]; discriminate H.
Defined.

(* ===================================================================== *)
(** ** A decoder's codec parameters *)
(* ===================================================================== *)

Lemma getattr_in_dir o name v : getattr o name = Some v -> In name (dir o).
Proof.
  induction o as [|[n x] o IH]; cbn; [discriminate|].
  destruct (String.eqb n name) eqn:Hn.
  - apply String.eqb_eq in Hn. auto.
  - auto.
Qed.

Lemma in_dir_getattr o name : In name (dir o) -> exists v, getattr o name = Some v.
Proof.
  induction o as [|[n x] o IH]; cbn; [tauto|].
  intros [H|H].
  - subst. rewrite String.eqb_refl. eauto.
  - destruct (String.eqb n name); eauto.
Qed.

Lemma list_remove_incl x l l' : list_remove x l = Some l' -> incl l' l.
Proof.
  revert l'. induction l as [|y l IH]; cbn; [discriminate|].
  intros l'. destruct (String.eqb y x).
  - intros H; inversion H; subst. apply incl_tl, incl_refl.
  - destruct (list_remove x l) as [l0|]; cbn; [|discriminate].
    intros H; inversion H; subst. apply incl_cons.
    + left; reflexivity.
    + apply incl_tl, IH; reflexivity.
Qed.

Lemma list_remove_keeps x y l l' :
  list_remove x l = Some l' -> y <> x -> In y l -> In y l'.
Proof.
  revert l'. induction l as [|z l IH]; cbn; [discriminate|].
  intros l'. destruct (String.eqb z x) eqn:Hz.
  - apply String.eqb_eq in Hz. subst z.
    intros H Hne [Hy|Hy]; inversion H; subst; [congruence|assumption].
  - destruct (list_remove x l) as [l0|]; cbn; [|discriminate].
    intros H Hne [Hy|Hy]; inversion H; subst; [left; reflexivity|].
    right. apply IH; auto.
Qed.

(** The loop stops at the first attribute whose value is not among the
    accepted ones. *)
Lemma check_params_rejects o params name v :
  incl params (dir o) ->
  In name params ->
  getattr o name = Some v ->
  py_in v restricted_values = false ->
  check_params o params = Raise (ValueError restrict_msg).
Proof.
  induction params as [|p params IH]; intros Hincl Hin Hget Hbad; [destruct Hin|].
  cbn [check_params].
  destruct (in_dir_getattr o p) as [vp Hp]; [apply Hincl; left; reflexivity|].
  rewrite Hp. destruct (py_in vp restricted_values) eqn:Hvp; cbn [negb]; [|reflexivity].
  destruct Hin as [Heq|Hin].
  - subst p. congruence.
  - apply IH; auto. intros q Hq. apply Hincl. right. exact Hq.
Qed.

Lemma check_params_accepts o params :
  (forall p, In p params -> exists v, getattr o p = Some v /\ py_in v restricted_values = true) ->
  check_params o params = Ok tt.
Proof.
  induction params as [|p params IH]; intros H; [reflexivity|].
  cbn [check_params]. destruct (H p) as (v & Hv & Hin); [left; reflexivity|].
  rewrite Hv, Hin. cbn. apply IH. intros q Hq. apply H. right; exact Hq.
Qed.

(** What [value in [0, -1, b'', True, False]] accepts: each listed value,
    and the integer 1, which equals [True]. *)
Lemma restricted_values_spec v :
  py_in v restricted_values = true <->
  v = VInt 0 \/ v = VInt (-1) \/ v = VInt 1 \/ v = VBytes [] \/ (exists b, v = VBool b).
Proof.
  unfold py_in, restricted_values. cbn [existsb]. split.
  - destruct v as [z|b|b]; cbn.
    + rewrite !orb_false_r, !orb_true_iff, !Z.eqb_eq. intros [H|[H|[H|H]]]; subst; auto.
    + eauto 6.
    + destruct b; cbn; [auto 6|discriminate].
  - intros [H|[H|[H|[H|[b H]]]]]; subst; try reflexivity. destruct b; reflexivity.
Qed.

Lemma init_check_rejects cp name v :
  getattr cp name = Some v ->
  startswith name "_" = false ->
  dont_care name = false ->
  py_in v restricted_values = false ->
  exists msg, init_check_codec_params DECODE (Some cp) = Raise (ValueError msg).
Proof.
  intros Hget Hpub Hcare Hbad.
  unfold dont_care, str_in in Hcare. cbn [existsb] in Hcare.
  rewrite !orb_false_iff, !String.eqb_neq in Hcare.
  destruct Hcare as (Hf & Hf2 & Hs & _).
  unfold init_check_codec_params. cbn [FFIOMode_eqb].
  set (params := filter _ (dir cp)).
  assert (Hin0 : In name params).
  { apply filter_In. split; [eapply getattr_in_dir; eauto|]. rewrite Hpub; reflexivity. }
  assert (Hincl0 : incl params (dir cp)) by apply incl_filter.
  unfold remove, bindR.
  destruct (list_remove "flags" params) as [l1|] eqn:H1; [|eauto].
  destruct (list_remove "flags2" l1) as [l2|] eqn:H2; [|eauto].
  destruct (list_remove "sei_uuid" l2) as [l3|] eqn:H3; [|eauto].
  exists restrict_msg. eapply check_params_rejects; eauto.
  - eapply incl_tran; [eapply list_remove_incl; eauto|].
    eapply incl_tran; [eapply list_remove_incl; eauto|].
    eapply incl_tran; [eapply list_remove_incl; eauto|]. exact Hincl0.
  - eapply list_remove_keeps; eauto.
    eapply list_remove_keeps; eauto.
    eapply list_remove_keeps; eauto.
Qed.

Section DecoderParams.

Context {E : ffio_c}.

(** C2, amended. Constructing a decoder with a parameter object in which
    some public attribute other than flags, flags2 and sei_uuid holds a
    value that is none of 0, -1, b'', True, False (nor 1, which equals
    True) raises ValueError before any engine call. *)
Theorem C2_decoder_params_rejected url m hw pix dev shm sz off cp t name v :
  init_mode m = Ok DECODE ->
  getattr cp name = Some v ->
  startswith name "_" = false ->
  dont_care name = false ->
  py_in v restricted_values = false ->
  exists msg,
    __init__ url m hw pix dev shm sz off (Some cp) t = (Raise (ValueError msg), t).
Proof.
  intros Hm Hget Hpub Hcare Hbad.
  destruct (init_check_rejects cp name Hget Hpub Hcare Hbad) as [msg Hmsg].
  exists msg. eapply init_check_raise; eauto.
Qed.

End DecoderParams.

Lemma C2_decoder_params_rejected_witness :
  exists msg,
    __init__ (E := Scripted.engine 1 true 0 1) "file.mp4" (mode_str "decode")
             false false "" None 0 0 (Some (C2_inputs.with_bitrate 500)) []
    = (Raise (ValueError msg), []).
Proof.
  apply (C2_decoder_params_rejected (E := Scripted.engine 1 true 0 1)
           "file.mp4" (mode_str "decode") false false "" None 0 0
           (C2_inputs.with_bitrate 500) [] "bitrate" (v := VInt 500));
    reflexivity.
Defined.

(** C2 as stated fails: a decoder whose [bitrate] is -1, or 1, away from
    the default 0, is constructed and the engine is opened. *)
Lemma C2_counterexample :
  (is_default (VInt (-1)) = false /\ dont_care "bitrate" = false /\
   getattr (C2_inputs.with_bitrate (-1)) "bitrate" = Some (VInt (-1)) /\
   exists self t',
     __init__ (E := Scripted.engine 1 true 0 1) "file.mp4" (mode_enum DECODE)
              false false "" None 0 0 (Some (C2_inputs.with_bitrate (-1))) []
     = (Ok self, t') /\
     List.length (init_calls t') = 1%nat) /\
  (is_default (VInt 1) = false /\
   getattr (C2_inputs.with_bitrate 1) "bitrate" = Some (VInt 1) /\
   exists self t',
     __init__ (E := Scripted.engine 1 true 0 1) "file.mp4" (mode_enum DECODE)
              false false "" None 0 0 (Some (C2_inputs.with_bitrate 1)) []
     = (Ok self, t') /\
     List.length (init_calls t') = 1%nat).
Proof.
  split.
  - do 3 (split; [reflexivity|]). do 2 eexists. split; vm_compute; reflexivity.
  - do 2 (split; [reflexivity|]). do 2 eexists. split; vm_compute; reflexivity.
Qed.

(* ===================================================================== *)
(** ** The PTS trick *)
(* ===================================================================== *)

Lemma startswith_scheme url scheme :
  startswith url scheme = true <-> has_scheme url scheme.
Proof.
  unfold startswith, has_scheme. revert url.
  induction scheme as [|c p IH]; intros url; cbn.
  - split; [exists url; reflexivity|destruct url; reflexivity].
  - destruct url as [|d url]; cbn.
    + split; [discriminate|]. intros [rest H]; discriminate.
    + destruct (ascii_dec c d) as [Hc|Hc].
      * subst d. rewrite IH. split.
        -- intros [rest ->]. exists rest; reflexivity.
        -- intros [rest H]. inversion H. exists rest; reflexivity.
      * split; [discriminate|]. intros [rest H]. inversion H. congruence.
Qed.

Lemma live_url_startswith url :
  startswith url "rtmp://" || startswith url "rtsp://" || startswith url "srt://" = true
  <-> live_url url.
Proof.
  unfold live_url. rewrite !orb_true_iff, !startswith_scheme. tauto.
Qed.

Lemma py_eq_minus_one v : py_eq v (VInt (-1)) = true <-> v = VInt (-1).
Proof.
  destruct v as [z|b|b]; cbn.
  - rewrite Z.eqb_eq. split; [intros ->; reflexivity|intros H; inversion H; reflexivity].
  - destruct b; cbn; split; discriminate.
  - split; discriminate.
Qed.

Lemma getattr_setattr_same o name v x :
  getattr o name = Some v -> getattr (setattr o name x) name = Some x.
Proof.
  induction o as [|[n y] o IH]; cbn; [discriminate|].
  destruct (String.eqb n name) eqn:Hn; cbn; rewrite Hn; auto.
Qed.

Lemma getattr_setattr_other o name name' x :
  name' <> name -> getattr (setattr o name x) name' = getattr o name'.
Proof.
  intros Hne. induction o as [|[n y] o IH]; cbn; [reflexivity|].
  destruct (String.eqb n name) eqn:Hn; cbn.
  - apply String.eqb_eq in Hn. subst n.
    destruct (String.eqb name name') eqn:Hn'; [|reflexivity].
    apply String.eqb_eq in Hn'. congruence.
  - rewrite IH. reflexivity.
Qed.

Lemma dir_setattr o name x : dir (setattr o name x) = dir o.
Proof.
  unfold dir. induction o as [|[n y] o IH]; cbn; [reflexivity|].
  destruct (String.eqb n name); cbn; [reflexivity|]. rewrite IH. reflexivity.
Qed.

Section PtsTrick.

Context {E : ffio_c}.

(** [_auto_set_pts_trick] on an object that has the attribute. *)
Lemma auto_set_pts_trick_spec url cp v :
  getattr cp "pts_trick" = Some v ->
  exists cp',
    _auto_set_pts_trick url cp = Ok cp' /\
    dir cp' = dir cp /\
    (forall name, name <> "pts_trick" -> getattr cp' name = getattr cp name) /\
    (v = VInt (-1) -> live_url url ->
     getattr cp' "pts_trick" = Some (VInt FFIO_PTS_TRICK_EVEN)) /\
    (v = VInt (-1) -> ~ live_url url ->
     getattr cp' "pts_trick" = Some (VInt FFIO_PTS_TRICK_INCREASE)) /\
    (v <> VInt (-1) -> cp' = cp).
Proof.
  intros Hv. unfold _auto_set_pts_trick. rewrite Hv.
  destruct (py_eq v (VInt (-1))) eqn:Hs.
  - apply py_eq_minus_one in Hs.
    destruct (startswith url "rtmp://" || startswith url "rtsp://"
              || startswith url "srt://") eqn:Hl.
    + apply live_url_startswith in Hl.
      eexists; split; [reflexivity|]. split; [apply dir_setattr|].
      split; [intros; apply getattr_setattr_other; assumption|].
      split; [intros; eapply getattr_setattr_same; eassumption|].
      split; [tauto|congruence].
    + assert (Hn : ~ live_url url).
      { intros H. apply live_url_startswith in H. congruence. }
      eexists; split; [reflexivity|]. split; [apply dir_setattr|].
      split; [intros; apply getattr_setattr_other; assumption|].
      split; [tauto|].
      split; [intros; eapply getattr_setattr_same; eassumption|congruence].
  - assert (Hn : v <> VInt (-1)).
    { intros H. apply py_eq_minus_one in H. congruence. }
    eexists; split; [reflexivity|]. split; [reflexivity|].
    split; [reflexivity|]. split; [tauto|]. split; [tauto|reflexivity].
Qed.

(** The engine calls that a returning construction adds to the trace,
    and the attributes it leaves. *)
Lemma init_ok_engine_calls url m hw pix dev shm sz off cp t self t' :
  __init__ url m hw pix dev shm sz off cp t = (Ok self, t') ->
  exists sm d cp1 ia opened,
    init_mode m = Ok sm /\
    init_hw_device dev = Ok d /\
    _auto_set_pts_trick url (params_or_new cp) = Ok cp1 /\
    ia = init_args sm url hw (passed_pix_fmt hw pix) (attr_hw_device d) shm sz off cp1 /\
    opened = fst (api_initFFIO api_newFFIO ia) /\
    init_calls t' = (init_calls t ++ [(ia, opened)])%list /\
    engine_calls t'
    = (engine_calls t ++ [ev_newFFIO; ev_initFFIO ia opened]
         ++ (if ffio_state opened =? 1 then [] else [ev_deleteFFIO]))%list /\
    _c_ffio_ptr self
    = Some (if ffio_state opened =? 1 then opened else api_deleteFFIO opened) /\
    width self = (if ffio_state opened =? 1 then image_width opened else 0) /\
    height self = (if ffio_state opened =? 1 then image_height opened else 0) /\
    framerate self = (if ffio_state opened =? 1 then c_framerate opened else NInt 0).
Proof.
  intros H. apply init_ok_inv in H.
  destruct H as (sm & d & cp1 & Hm & _ & Hd & Hp & Ht & _ & _ & _ & _ & _ & _ & _
                 & Hptr & Hw & Hh & Hf).
  exists sm, d, cp1. eexists. eexists.
  split; [exact Hm|]. split; [exact Hd|]. split; [exact Hp|].
  split; [reflexivity|]. split; [reflexivity|].
  cbv zeta in Ht, Hptr, Hw, Hh, Hf.
  split; [|split; [|split; [exact Hptr|split; [exact Hw|split; [exact Hh|exact Hf]]]]];
    subst t'; unfold init_calls, engine_calls;
    rewrite ?flat_map_app, ?filter_app;
    destruct (pix && negb hw);
    match goal with
    | |- context [ffio_state ?o =? 1] => destruct (ffio_state o =? 1)
    end; cbn; rewrite ?app_nil_r; reflexivity.
Qed.

(** C3. When the parameter object of a returning construction holds the
    sentinel -1 in pts_trick, the object handed to the one [api_initFFIO]
    call already holds Even for an rtmp://, rtsp:// or srt:// target and
    Increase for every other target; a value other than -1 is handed over
    as it was. No other attribute is touched. *)
Theorem C3_pts_trick url m hw pix dev shm sz off cp t self t' v :
  __init__ url m hw pix dev shm sz off cp t = (Ok self, t') ->
  getattr (params_or_new cp) "pts_trick" = Some v ->
  exists ia opened,
    init_calls t' = (init_calls t ++ [(ia, opened)])%list /\
    (forall name, name <> "pts_trick" ->
       getattr (ia_codec_params ia) name = getattr (params_or_new cp) name) /\
    (v = VInt (-1) -> live_url url ->
     getattr (ia_codec_params ia) "pts_trick" = Some (VInt FFIO_PTS_TRICK_EVEN)) /\
    (v = VInt (-1) -> ~ live_url url ->
     getattr (ia_codec_params ia) "pts_trick" = Some (VInt FFIO_PTS_TRICK_INCREASE)) /\
    (v <> VInt (-1) -> ia_codec_params ia = params_or_new cp).
Proof.
  intros Hi Hv. apply init_ok_engine_calls in Hi.
  destruct Hi as (sm & d & cp1 & ia & opened & _ & _ & Hp & Hia & _ & Hcalls & _).
  destruct (auto_set_pts_trick_spec url (params_or_new cp) Hv)
    as (cp' & Hp' & _ & Hother & Heven & Hinc & Hsame).
  assert (cp' = cp1) by congruence. subst cp'.
  assert (Hcp : ia_codec_params ia = cp1).
  { subst ia. unfold init_args. destruct shm; reflexivity. }
  exists ia, opened. rewrite Hcp. auto.
Qed.

End PtsTrick.

Lemma C3_pts_trick_witness :
  exists ia opened,
    init_calls (trace_of Scenarios.rtsp_decoder) = [(ia, opened)] /\
    getattr (ia_codec_params ia) "pts_trick" = Some (VInt 0).
Proof.
  edestruct (fun self t' H =>
               C3_pts_trick (E := Scripted.engine 1 true 0 1)
                 "rtsp://cam/1" (mode_str "decode") false false "" None 0 0 None []
                 (self := self) (t' := t') (v := VInt (-1)) H eq_refl)
    as (ia & opened & Hcalls & _ & Heven & _).
  { cbv. reflexivity. }
  exists ia, opened. split; [exact Hcalls|].
  apply Heven; [reflexivity|]. right; left. exists "cam/1". reflexivity.
Defined.

(* ===================================================================== *)
(** ** The outcome of the open call *)
(* ===================================================================== *)

Section Open.

Context {E : ffio_c}.

Lemma bool_of_handle self p :
  _c_ffio_ptr self = Some p -> __bool__ self = Ok (is_open_code (ffio_state p)).
Proof.
  intros H. unfold __bool__, is_open_code. rewrite H.
  destruct ((ffio_state p =? 1) || (ffio_state p =? 2)); reflexivity.
Qed.

(** C1, amended. A returning construction has made exactly one open call.
    If the engine object then reports state code 1, the session keeps it,
    is valid, and mirrors its width, height and framerate, and nothing is
    deleted. For every other state code, 2 included, the next and last
    engine call deletes the handle and width, height and framerate are 0;
    validity is then the test of the state code read through the deleted
    handle against 1 and 2. *)
Theorem C1_open_outcome url m hw pix dev shm sz off cp t self t' :
  __init__ url m hw pix dev shm sz off cp t = (Ok self, t') ->
  exists ia opened,
    init_calls t' = (init_calls t ++ [(ia, opened)])%list /\
    (ffio_state opened = 1 ->
     __bool__ self = Ok true /\
     _c_ffio_ptr self = Some opened /\
     width self = image_width opened /\
     height self = image_height opened /\
     framerate self = c_framerate opened /\
     engine_calls t' = (engine_calls t ++ [ev_newFFIO; ev_initFFIO ia opened])%list) /\
    (ffio_state opened <> 1 ->
     engine_calls t'
     = (engine_calls t ++ [ev_newFFIO; ev_initFFIO ia opened; ev_deleteFFIO])%list /\
     _c_ffio_ptr self = Some (api_deleteFFIO opened) /\
     width self = 0 /\ height self = 0 /\ framerate self = NInt 0 /\
     __bool__ self = Ok (is_open_code (ffio_state (api_deleteFFIO opened)))).
Proof.
  intros Hi. apply init_ok_engine_calls in Hi.
  destruct Hi as (sm & d & cp1 & ia & opened & _ & _ & _ & _ & _
                  & Hcalls & Heng & Hptr & Hw & Hh & Hf).
  exists ia, opened. split; [exact Hcalls|]. split.
  - intros Hs. rewrite Hs in *. cbn in *.
    rewrite (bool_of_handle _ Hptr), Hs. cbn. auto 6.
  - intros Hs. apply Z.eqb_neq in Hs. rewrite Hs in *.
    rewrite (bool_of_handle _ Hptr). auto 6.
Qed.

End Open.

Lemma C1_open_outcome_witness :
  exists self t' ia opened,
    __init__ (E := Scripted.engine 1 true 0 1) "file.mp4" (mode_enum DECODE)
             false false "" None 0 0 None [] = (Ok self, t') /\
    init_calls t' = [(ia, opened)] /\
    __bool__ self = Ok true /\ width self = 640 /\ height self = 480.
Proof.
  edestruct (fun self t' H =>
               C1_open_outcome (E := Scripted.engine 1 true 0 1)
                 "file.mp4" (mode_enum DECODE) false false "" None 0 0 None []
                 (self := self) (t' := t') H)
    as (ia & opened & Hcalls & Hready & _).
  { cbv. reflexivity. }
  do 2 eexists. exists ia, opened. split; [cbv; reflexivity|].
  split; [exact Hcalls|].
  cbn in Hcalls. inversion Hcalls. subst opened.
  destruct Hready as (Hb & _ & Hw & Hh & _); [reflexivity|].
  split; [exact Hb|]. split; [exact Hw|exact Hh].
Defined.

(** C1 as stated fails: the engine reports state code 2, one of the two
    codes that [__bool__] accepts, on a 640x480 stream; the handle is
    deleted and the session's width, height and framerate are 0. *)
Lemma C1_counterexample :
  exists self t' ia opened,
    __init__ (E := Scripted.engine 2 true 0 1) "file.mp4" (mode_enum DECODE)
             false false "" None 0 0 None [] = (Ok self, t') /\
    init_calls t' = [(ia, opened)] /\
    ffio_state opened = 2 /\ is_open_code (ffio_state opened) = true /\
    image_width opened = 640 /\ image_height opened = 480 /\
    width self = 0 /\ height self = 0 /\ framerate self = NInt 0 /\
    existsb is_delete t' = true.
Proof.
  do 4 eexists. split; [cbv; reflexivity|].
  split; [reflexivity|]. repeat split.
Qed.

Section PixFmt.

Context {E : ffio_c}.

(** C10. Constructed with pix_fmt_hw_enabled = True and hw_enabled = False,
    the wrapper prints its warning after [api_newFFIO], then makes its one
    [api_initFFIO] call with the pixel-format flag False; the session's
    attribute pix_fmt_hw_enabled stays True. *)
Theorem C10_pix_fmt_downgrade url m dev shm sz off cp t self t' :
  __init__ url m false true dev shm sz off cp t = (Ok self, t') ->
  pix_fmt_hw_enabled self = true /\
  hw_enabled self = false /\
  exists ia opened rest,
    t' = (t ++ [ev_newFFIO;
                ev_print (msg_pix_fmt_warning (FFIOMode_name (mode self)));
                ev_initFFIO ia opened] ++ rest)%list /\
    init_calls t' = (init_calls t ++ [(ia, opened)])%list /\
    ia_pix_fmt_hw_enabled ia = false /\
    ia_hw_enabled ia = false.
Proof.
  intros Hi. pose proof (init_ok_engine_calls _ _ _ _ _ _ _ _ _ _ Hi)
    as (sm0 & d0 & cp0 & ia0 & opened0 & Hm0 & Hd0 & Hp0 & Hia0 & Ho0 & Hcalls & _).
  apply init_ok_inv in Hi.
  destruct Hi as (sm & d & cp1 & Hm & _ & Hd & Hp & Ht & Hmode & _ & Hhw & Hpix & _).
  assert (sm0 = sm) by congruence. assert (d0 = d) by congruence.
  assert (cp0 = cp1) by congruence. subst sm0 d0 cp0.
  split; [exact Hpix|]. split; [exact Hhw|].
  cbv zeta in Ht. cbn [andb negb] in Ht. rewrite <- Hia0, <- Ho0 in Ht.
  exists ia0, opened0. eexists. rewrite Hmode.
  split; [exact Ht|]. split; [exact Hcalls|].
  subst ia0. unfold init_args, passed_pix_fmt. destruct shm; split; reflexivity.
Qed.

End PixFmt.

Lemma C10_pix_fmt_downgrade_witness :
  exists self t' ia opened,
    __init__ (E := Scripted.engine 1 true 0 1) "file.mp4" (mode_enum DECODE)
             false true "" None 0 0 None [] = (Ok self, t') /\
    pix_fmt_hw_enabled self = true /\
    init_calls t' = [(ia, opened)] /\
    ia_pix_fmt_hw_enabled ia = false.
Proof.
  edestruct (fun self t' H =>
               C10_pix_fmt_downgrade (E := Scripted.engine 1 true 0 1)
                 "file.mp4" (mode_enum DECODE) "" None 0 0 None []
                 (self := self) (t' := t') H)
    as (Hpix & _ & ia & opened & rest & _ & Hcalls & Hflag & _).
  { cbv. reflexivity. }
  do 2 eexists. exists ia, opened. split; [cbv; reflexivity|].
  split; [exact Hpix|]. split; [exact Hcalls|exact Hflag].
Defined.

(* ===================================================================== *)
(** ** Decoding, encoding and teardown *)
(* ===================================================================== *)

Section Methods.

Context {E : ffio_c}.

Lemma frame_seq_py_after_call self p' ok :
  frame_seq_py (after_call self p' ok) = frame_seq_py self + (if ok then 1 else 0).
Proof. unfold after_call. destruct ok; cbn; lia. Qed.

Lemma decode_one_frame_eq self p f t :
  _c_ffio_ptr self = Some p ->
  decode_one_frame self f t
  = (Ok (snd (api_decodeOneFrame p (option_map encode f)),
         after_call self (fst (api_decodeOneFrame p (option_map encode f)))
           (CFFIOFrame__bool__ (snd (api_decodeOneFrame p (option_map encode f))))),
     (t ++ [ev_decodeOneFrame (option_map encode f)])%list).
Proof.
  intros Hp. unfold decode_one_frame, after_call. unfold_m. rewrite Hp. cbn.
  destruct (CFFIOFrame__bool__ _); reflexivity.
Qed.

Lemma decode_one_frame_to_shm_eq self p off f t :
  _c_ffio_ptr self = Some p ->
  decode_one_frame_to_shm self off f t
  = (Ok (snd (api_decodeOneFrameToShm p off (option_map encode f)),
         after_call self (fst (api_decodeOneFrameToShm p off (option_map encode f)))
           (CFFIOFrame__bool__ (snd (api_decodeOneFrameToShm p off (option_map encode f))))),
     (t ++ [ev_decodeOneFrameToShm off (option_map encode f)])%list).
Proof.
  intros Hp. unfold decode_one_frame_to_shm, after_call. unfold_m. rewrite Hp. cbn.
  destruct (CFFIOFrame__bool__ _); reflexivity.
Qed.

Lemma encode_bytes_eq self p img sei t :
  _c_ffio_ptr self = Some p ->
  let sei_b := option_map encode sei in
  let r := api_encodeOneFrame p img sei_b (sei_size sei_b) in
  encode_one_frame self (img_bytes img) sei t
  = (Ok (snd r =? 0, after_call self (fst r) (snd r =? 0)),
     (t ++ [ev_encodeOneFrame img sei_b (sei_size sei_b)])%list).
Proof.
  intros Hp. cbv zeta. simp encode_one_frame. unfold after_call. unfold_m.
  rewrite Hp. cbn.
  destruct (snd _ =? 0); reflexivity.
Qed.

Lemma encode_from_shm_eq self p off sei t :
  _c_ffio_ptr self = Some p ->
  let sei_b := option_map encode sei in
  let r := api_encodeOneFrameFromShm p off sei_b (sei_size sei_b) in
  encode_one_frame_from_shm self off sei t
  = (Ok (snd r, after_call self (fst r) (truthy (snd r))),
     (t ++ [ev_encodeOneFrameFromShm off sei_b (sei_size sei_b)])%list).
Proof.
  intros Hp. cbv zeta. unfold encode_one_frame_from_shm, after_call, truthy. unfold_m.
  rewrite Hp. cbn.
  destruct (snd _ =? 0); reflexivity.
Qed.

Lemma release_memory_eq self p t :
  _c_ffio_ptr self = Some p ->
  exists self',
    release_memory self t
    = (Ok self', (t ++ [ev_finalizeFFIO; ev_deleteFFIO])%list) /\
    _c_ffio_ptr self' = None /\ target_url self' = None /\ codec_params self' = None /\
    width self' = 0 /\ height self' = 0 /\ frame_seq_py self' = 0.
Proof.
  intros Hp. unfold release_memory. unfold_m. rewrite Hp. cbn.
  eexists. rewrite <- app_assoc. cbn. split; [reflexivity|]. cbn. repeat split.
Qed.

(** C8. An array is submitted exactly as its [tobytes()] would be: same
    result, same session afterwards, same trace. An image object gives
    False, and neither the session nor the trace changes. *)
Theorem C8_encode_input_kinds self sei t :
  (forall a,
     encode_one_frame self (img_ndarray a) sei t
     = encode_one_frame self (img_bytes (tobytes a)) sei t) /\
  (forall width height pixels,
     encode_one_frame self (img_pil width height pixels) sei t = (Ok (false, self), t)).
Proof.
  split.
  - intros a. rewrite encode_one_frame_equation_2. reflexivity.
  - intros width height pixels. rewrite encode_one_frame_equation_3. reflexivity.
Qed.

(** An array reaches the engine once, as its bytes. *)
Lemma encode_ndarray_trace self p a sei t :
  _c_ffio_ptr self = Some p ->
  snd (encode_one_frame self (img_ndarray a) sei t)
  = (t ++ [ev_encodeOneFrame (tobytes a) (option_map encode sei)
             (sei_size (option_map encode sei))])%list.
Proof.
  intros Hp. rewrite encode_one_frame_equation_2. cbv zeta.
  rewrite (encode_bytes_eq _ _ _ _ Hp). reflexivity.
Qed.

(** C6. The counter is 0 after construction; on a session with a live
    handle each decode and each encode call returns, and adds exactly 1
    when its result is truthy and nothing otherwise; [release_memory]
    returns and leaves the counter at 0. *)
Theorem C6_frame_counter :
  (forall url m hw pix dev shm sz off cp t self t',
     __init__ url m hw pix dev shm sz off cp t = (Ok self, t') ->
     frame_seq_py self = 0) /\
  (forall self p, _c_ffio_ptr self = Some p ->
     (forall f t, exists frame self' t',
        decode_one_frame self f t = (Ok (frame, self'), t') /\
        frame_seq_py self'
        = frame_seq_py self + (if CFFIOFrame__bool__ frame then 1 else 0)) /\
     (forall off f t, exists frame self' t',
        decode_one_frame_to_shm self off f t = (Ok (frame, self'), t') /\
        frame_seq_py self'
        = frame_seq_py self + (if CFFIOFrame__bool__ frame then 1 else 0)) /\
     (forall img sei t, exists ok self' t',
        encode_one_frame self img sei t = (Ok (ok, self'), t') /\
        frame_seq_py self' = frame_seq_py self + (if ok then 1 else 0)) /\
     (forall off sei t, exists r self' t',
        encode_one_frame_from_shm self off sei t = (Ok (r, self'), t') /\
        frame_seq_py self' = frame_seq_py self + (if truthy r then 1 else 0)) /\
     (forall t, exists self' t',
        release_memory self t = (Ok self', t') /\ frame_seq_py self' = 0)).
Proof.
  split.
  - intros url m hw pix dev shm sz off cp t self t' Hi.
    apply init_ok_inv in Hi.
    destruct Hi as (sm & d & cp1 & _ & _ & _ & _ & _ & _ & Hseq & _). exact Hseq.
  - intros self p Hp. split; [|split; [|split; [|split]]].
    + intros f t. do 3 eexists. split; [apply decode_one_frame_eq; exact Hp|].
      apply frame_seq_py_after_call.
    + intros off f t. do 3 eexists.
      split; [apply decode_one_frame_to_shm_eq; exact Hp|].
      apply frame_seq_py_after_call.
    + intros img sei t. destruct img as [b|a|wd ht px].
      * do 3 eexists. split; [apply encode_bytes_eq; exact Hp|].
        apply frame_seq_py_after_call.
      * do 3 eexists. split.
        -- rewrite encode_one_frame_equation_2. cbv zeta.
           apply encode_bytes_eq; exact Hp.
        -- apply frame_seq_py_after_call.
      * exists false, self, t. split; [simp encode_one_frame; reflexivity|lia].
    + intros off sei t. do 3 eexists.
      split; [apply encode_from_shm_eq; exact Hp|].
      apply frame_seq_py_after_call.
    + intros t. destruct (release_memory_eq self t Hp) as (self' & Hr & _ & _ & _ & _ & _ & Hseq).
      eauto.
Qed.

(** C9. On a session with a live handle a decode call returns the
    engine's frame, whatever its truth value, and raises nothing. When the
    frame is falsy the session is as before but for the engine object, and
    the one decode call is all that reached the engine: nothing is
    finalized or deleted. *)
Theorem C9_decode_failure self p f off t :
  _c_ffio_ptr self = Some p ->
  (exists frame self',
     decode_one_frame self f t
     = (Ok (frame, self'), (t ++ [ev_decodeOneFrame (option_map encode f)])%list) /\
     frame = snd (api_decodeOneFrame p (option_map encode f)) /\
     (CFFIOFrame__bool__ frame = false ->
      self' = with_ptr self (Some (fst (api_decodeOneFrame p (option_map encode f)))))) /\
  (exists frame self',
     decode_one_frame_to_shm self off f t
     = (Ok (frame, self'),
        (t ++ [ev_decodeOneFrameToShm off (option_map encode f)])%list) /\
     frame = snd (api_decodeOneFrameToShm p off (option_map encode f)) /\
     (CFFIOFrame__bool__ frame = false ->
      self' = with_ptr self
                (Some (fst (api_decodeOneFrameToShm p off (option_map encode f)))))).
Proof.
  intros Hp. split.
  - do 2 eexists. split; [apply decode_one_frame_eq; exact Hp|].
    split; [reflexivity|]. intros Hf. unfold after_call. rewrite Hf. reflexivity.
  - do 2 eexists. split; [apply decode_one_frame_to_shm_eq; exact Hp|].
    split; [reflexivity|]. intros Hf. unfold after_call. rewrite Hf. reflexivity.
Qed.

(** C7, amended. [encode_one_frame] takes engine status 0 for success,
    [encode_one_frame_from_shm] takes a truthy engine result for success
    and returns that result itself. When the two engine results agree in
    that sense, the two calls return the same truth value and leave the
    same frame counter. *)
Theorem C7_encode_from_shm_agrees self p img off sei t :
  _c_ffio_ptr self = Some p ->
  let sei_b := option_map encode sei in
  let status := snd (api_encodeOneFrame p img sei_b (sei_size sei_b)) in
  let shm_result := snd (api_encodeOneFrameFromShm p off sei_b (sei_size sei_b)) in
  (status = 0 <-> shm_result <> 0) ->
  exists ok self1 t1 self2 t2,
    encode_one_frame self (img_bytes img) sei t = (Ok (ok, self1), t1) /\
    encode_one_frame_from_shm self off sei t = (Ok (shm_result, self2), t2) /\
    ok = truthy shm_result /\
    frame_seq_py self1 = frame_seq_py self2 /\
    frame_seq_py self1 = frame_seq_py self + (if ok then 1 else 0).
Proof.
  intros Hp sei_b status shm_result Hagree.
  do 5 eexists.
  split; [apply encode_bytes_eq; exact Hp|].
  split; [apply encode_from_shm_eq; exact Hp|].
  fold sei_b. fold status. fold shm_result.
  assert (Heq : (status =? 0) = truthy shm_result).
  { unfold truthy. destruct (Z.eqb_spec status 0) as [Hs|Hs];
      destruct (Z.eqb_spec shm_result 0) as [Hr|Hr]; cbn; try reflexivity; tauto. }
  split; [exact Heq|].
  rewrite !frame_seq_py_after_call. fold sei_b. fold status. fold shm_result.
  rewrite Heq. split; reflexivity.
Qed.

End Methods.

Lemma C6_frame_counter_witness :
  (exists self t',
     __init__ (E := Scripted.engine 1 true 0 1) "file.mp4" (mode_enum DECODE)
              false false "" None 0 0 None [] = (Ok self, t') /\
     frame_seq_py self = 0) /\
  (exists frame self' t',
     decode_one_frame (E := Scripted.engine 1 false 0 1)
       (Sessions.opened (Scripted.engine 1 false 0 1) Sessions.stream DECODE 7) None [] = (Ok (frame, self'), t') /\
     frame_seq_py self' = 7 + (if frame then 1 else 0)) /\
  (exists self' t',
     release_memory (E := Scripted.engine 1 true 0 1)
       (Sessions.opened (Scripted.engine 1 true 0 1) Sessions.stream DECODE 7) [] = (Ok self', t') /\
     frame_seq_py self' = 0).
Proof.
  split; [|split].
  - do 2 eexists. split; [cbv; reflexivity|].
    eapply (proj1 (C6_frame_counter (E := Scripted.engine 1 true 0 1))
              "file.mp4" (mode_enum DECODE) false false "" None 0 0 None []).
    cbv. reflexivity.
  - destruct (proj2 (C6_frame_counter (E := Scripted.engine 1 false 0 1))
                (Sessions.opened (Scripted.engine 1 false 0 1) Sessions.stream DECODE 7)
                Sessions.stream eq_refl)
      as (Hdec & _).
    exact (Hdec None []).
  - destruct (proj2 (C6_frame_counter (E := Scripted.engine 1 true 0 1))
                (Sessions.opened (Scripted.engine 1 true 0 1) Sessions.stream DECODE 7)
                Sessions.stream eq_refl)
      as (_ & _ & _ & _ & Hrel).
    exact (Hrel []).
Defined.

Lemma C9_decode_failure_witness :
  exists self',
    decode_one_frame (E := Scripted.engine 1 false 0 1)
      (Sessions.opened (Scripted.engine 1 false 0 1) Sessions.stream DECODE 7) None []
    = (Ok (false, self'), [ev_decodeOneFrame None]) /\
    frame_seq_py self' = 7.
Proof.
  destruct (C9_decode_failure (E := Scripted.engine 1 false 0 1)
              (Sessions.opened (Scripted.engine 1 false 0 1) Sessions.stream DECODE 7) None 0 [] eq_refl)
    as ((frame & self' & Hrun & Hframe & Hfalse) & _).
  cbn in Hframe. subst frame. exists self'. split; [exact Hrun|].
  rewrite (Hfalse eq_refl). reflexivity.
Defined.

Lemma C7_encode_from_shm_agrees_witness :
  exists self1 t1 self2 t2,
    encode_one_frame (E := Scripted.engine 1 true 0 1)
      (Sessions.opened (Scripted.engine 1 true 0 1) Sessions.stream ENCODE 7) (img_bytes [x00; x01; x02]) None []
    = (Ok (true, self1), t1) /\
    encode_one_frame_from_shm (E := Scripted.engine 1 true 0 1)
      (Sessions.opened (Scripted.engine 1 true 0 1) Sessions.stream ENCODE 7) 0 None []
    = (Ok (1, self2), t2) /\
    frame_seq_py self1 = 8 /\ frame_seq_py self2 = 8.
Proof.
  destruct (C7_encode_from_shm_agrees (E := Scripted.engine 1 true 0 1)
              (Sessions.opened (Scripted.engine 1 true 0 1) Sessions.stream ENCODE 7) [x00; x01; x02] 0 None []
              eq_refl)
    as (ok & self1 & t1 & self2 & t2 & H1 & H2 & Hok & Hsame & Hcount).
  { cbn. split; [discriminate|reflexivity]. }
  cbn in Hok. subst ok. exists self1, t1, self2, t2.
  split; [exact H1|]. split; [exact H2|].
  cbn in Hcount. rewrite <- Hsame. split; exact Hcount.
Defined.

(** C7 as stated fails: on the same engine result 0, [encode_one_frame]
    returns True and counts the frame, [encode_one_frame_from_shm] returns
    the falsy 0 and does not. *)
Lemma C7_counterexample :
  snd (api_encodeOneFrame (ffio_c := Scripted.engine 1 true 0 0)
         Sessions.stream [x00; x01; x02] None 0) = 0 /\
  snd (api_encodeOneFrameFromShm (ffio_c := Scripted.engine 1 true 0 0)
         Sessions.stream 0 None 0) = 0 /\
  exists self1 t1 self2 t2,
    encode_one_frame (E := Scripted.engine 1 true 0 0)
      (Sessions.opened (Scripted.engine 1 true 0 0) Sessions.stream ENCODE 7) (img_bytes [x00; x01; x02]) None []
    = (Ok (true, self1), t1) /\
    encode_one_frame_from_shm (E := Scripted.engine 1 true 0 0)
      (Sessions.opened (Scripted.engine 1 true 0 0) Sessions.stream ENCODE 7) 0 None []
    = (Ok (0, self2), t2) /\
    frame_seq_py self1 = 8 /\ frame_seq_py self2 = 7.
Proof.
  split; [reflexivity|]. split; [reflexivity|].
  do 4 eexists. split; [vm_compute; reflexivity|].
  split; [vm_compute; reflexivity|]. split; reflexivity.
Qed.

(* ===================================================================== *)
(** ** The hardware device string *)
(* ===================================================================== *)

Module ReFacts.
Import Re.







End ReFacts.









Section HwDevice.

Context {E : ffio_c}.

(** The empty string sets no instance attribute: the session reads the
    class attribute, and that is what the engine is given. *)
Lemma init_hw_device_empty url m hw pix shm sz off cp t self t' :
  __init__ url m hw pix "" shm sz off cp t = (Ok self, t') ->
  hw_device self = FFIO_hw_device /\
  exists ia opened,
    init_calls t' = (init_calls t ++ [(ia, opened)])%list /\
    ia_hw_device ia = encode FFIO_hw_device.
Proof.
  intros Hi. pose proof (init_ok_engine_calls _ _ _ _ _ _ _ _ _ _ Hi)
    as (sm & d & cp1 & ia & opened & _ & Hd & _ & Hia & _ & Hcalls & _).
  apply init_ok_inv in Hi.
  destruct Hi as (sm' & d' & cp1' & _ & _ & Hd' & _ & _ & _ & _ & _ & _ & Hattr & _).
  cbn in Hd, Hd'. injection Hd as <-. injection Hd' as <-.
  split; [unfold hw_device; rewrite Hattr; reflexivity|].
  exists ia, opened. split; [exact Hcalls|].
  subst ia. unfold init_args. destruct shm; reflexivity.
Qed.

End HwDevice.

(** C4 at "cuda:0" followed by a line feed: the string is neither "cuda"
    in any case nor of the numbered form, yet no ValueError is raised; the
    session keeps the string, line feed included, and the engine is given
    it as the device. *)
Theorem C4_hw_device_line_feed_accepted :
  let dev := "cuda:0" ++ line_feed in
  dev <> EmptyString /\ ~ ci_equal dev "cuda" /\ ~ numbered_cuda dev /\
  init_hw_device dev = Ok (Some dev) /\
  exists self t' ia opened,
    __init__ (E := Scripted.engine 1 true 0 1) "file.mp4" (mode_enum DECODE)
             true false dev None 0 0 None [] = (Ok self, t') /\
    hw_device self = dev /\
    init_calls t' = [(ia, opened)] /\
    ia_hw_device ia = encode dev.
Proof.
  cbv zeta. split; [discriminate|]. split; [discriminate|]. split.
  - intros (d1 & _ & [H|(d2 & Hd2 & H)]); unfold line_feed in H; cbn in H.
    + discriminate H.
    + injection H as _ <-. discriminate Hd2.
  - split; [reflexivity|]. do 4 eexists.
    split; [cbv; reflexivity|]. repeat split.
Qed.

(* ===================================================================== *)
(** ** Further properties of construction *)
(* ===================================================================== *)





Section ConstructionFacts.

Context {E : ffio_c}.




Lemma init_ok_shm_enabled url m hw pix dev shm sz off cp t self t' :
  __init__ url m hw pix dev shm sz off cp t = (Ok self, t') ->
  shm_enabled self = match shm with None => false | Some _ => true end.
Proof.
  unfold __init__. unfold_m.
  destruct (init_mode m) as [sm|e] eqn:Hm; [|discriminate].
  destruct (init_check_codec_params sm cp) as [[]|e] eqn:Hc; [|discriminate].
  destruct (init_hw_device dev) as [d|e] eqn:Hd; [|discriminate].
  destruct (_auto_set_pts_trick url _) as [cp1|e] eqn:Hp; [|discriminate].
  intros H.
  destruct (pix && negb hw); cbn in H;
    match type of H with
    | context [ffio_state ?o =? 1] => destruct (ffio_state o =? 1)
    end;
    cbn in H; inversion H; subst; reflexivity.
Qed.

(** X3. The one open call of a returning construction is given 0 for a
    decoder and 1 for an encoder, the UTF-8 bytes of the target and of the
    session's device, and the hardware flag as passed. Without a
    shared-memory name it is given the descriptor (False, b'', 0, 0),
    whatever shm_size and shm_offset the caller passed; with a name, the
    descriptor as passed. The session keeps the parameter object as the
    engine left it. *)
Theorem X3_open_call_arguments url m hw pix dev shm sz off cp t self t' :
  __init__ url m hw pix dev shm sz off cp t = (Ok self, t') ->
  exists ia opened,
    init_calls t' = (init_calls t ++ [(ia, opened)])%list /\
    ia_mode ia = (if FFIOMode_eqb (mode self) DECODE then 0 else 1) /\
    ia_url ia = encode url /\ target_url self = Some url /\
    ia_hw_enabled ia = hw /\ hw_enabled self = hw /\
    ia_hw_device ia = encode (hw_device self) /\
    match shm with
    | None =>
        shm_enabled self = false /\ ia_shm_enabled ia = false /\
        ia_shm_name ia = [] /\ ia_shm_size ia = 0 /\ ia_shm_offset ia = 0
    | Some name =>
        shm_enabled self = true /\ ia_shm_enabled ia = true /\
        ia_shm_name ia = encode name /\ ia_shm_size ia = sz /\ ia_shm_offset ia = off
    end /\
    codec_params self = Some (snd (api_initFFIO api_newFFIO ia)).
Proof.
  intros Hi. pose proof (init_ok_shm_enabled _ _ _ _ _ _ _ _ _ _ Hi) as Hshm.
  pose proof (init_ok_engine_calls _ _ _ _ _ _ _ _ _ _ Hi)
    as (sm0 & d0 & cp0 & ia & opened & Hm0 & Hd0 & Hp0 & Hia & _ & Hcalls & _).
  apply init_ok_inv in Hi.
  destruct Hi as (sm & d & cp1 & Hm & _ & Hd & Hp & _ & Hmode & _ & Hhw & _
                  & Hdev & Hurl & Hcp & _).
  assert (sm0 = sm) by congruence. assert (d0 = d) by congruence.
  assert (cp0 = cp1) by congruence. subst sm0 d0 cp0.
  cbv zeta in Hcp. rewrite <- Hia in Hcp.
  exists ia, opened. split; [exact Hcalls|].
  unfold hw_device. rewrite Hmode, Hdev, Hshm, Hurl, Hhw, Hcp.
  subst ia. unfold init_args. destruct shm; cbn; repeat split.
Qed.

(** X4. The pixel-format flag given to the open call is the conjunction
    of the two flags the caller passed; the warning is printed exactly
    when pix_fmt_hw_enabled is True and hw_enabled is False; the session's
    attribute is the caller's flag in every case. *)
Theorem X4_pix_fmt_flag url m hw pix dev shm sz off cp t self t' :
  __init__ url m hw pix dev shm sz off cp t = (Ok self, t') ->
  pix_fmt_hw_enabled self = pix /\
  exists ia opened added,
    init_calls t' = (init_calls t ++ [(ia, opened)])%list /\
    ia_pix_fmt_hw_enabled ia = pix && hw /\
    t' = (t ++ added)%list /\
    existsb is_pix_fmt_warning added = pix && negb hw.
Proof.
  intros Hi. pose proof (init_ok_engine_calls _ _ _ _ _ _ _ _ _ _ Hi)
    as (sm0 & d0 & cp0 & ia & opened & _ & _ & _ & Hia & _ & Hcalls & _).
  apply init_ok_inv in Hi.
  destruct Hi as (sm & d & cp1 & _ & _ & _ & _ & Ht & _ & _ & _ & Hpix & _).
  split; [exact Hpix|]. exists ia, opened. eexists.
  split; [exact Hcalls|]. split.
  - subst ia. unfold init_args, passed_pix_fmt.
    destruct shm, pix, hw; reflexivity.
  - split; [exact Ht|].
    destruct pix, hw; cbn;
      try match goal with
          | |- context [ffio_state ?o =? 1] => destruct (ffio_state o =? 1)
          end; reflexivity.
Qed.

End ConstructionFacts.



Lemma X3_open_call_arguments_witness :
  exists ia opened,
    init_calls (trace_of (__init__ (E := Scripted.engine 1 true 0 1) "out.mp4"
                            (mode_enum ENCODE) true false "" None 4096 16 None))
    = [(ia, opened)] /\
    ia_mode ia = 1 /\ ia_shm_size ia = 0 /\ ia_shm_offset ia = 0.
Proof.
  edestruct (fun self t' H =>
               X3_open_call_arguments (E := Scripted.engine 1 true 0 1)
                 "out.mp4" (mode_enum ENCODE) true false "" None 4096 16 None []
                 (self := self) (t' := t') H)
    as (ia & opened & Hcalls & Hmode & _ & _ & _ & _ & _ & (_ & _ & _ & Hsz & Hoff) & _).
  { cbv. reflexivity. }
  exists ia, opened. split; [exact Hcalls|]. split; [exact Hmode|].
  split; [exact Hsz|exact Hoff].
Defined.

Lemma X4_pix_fmt_flag_witness :
  exists ia opened,
    init_calls (trace_of (__init__ (E := Scripted.engine 1 true 0 1) "file.mp4"
                            (mode_enum DECODE) true true "" None 0 0 None))
    = [(ia, opened)] /\
    ia_pix_fmt_hw_enabled ia = true.
Proof.
  edestruct (fun self t' H =>
               X4_pix_fmt_flag (E := Scripted.engine 1 true 0 1)
                 "file.mp4" (mode_enum DECODE) true true "" None 0 0 None []
                 (self := self) (t' := t') H)
    as (_ & ia & opened & added & Hcalls & Hflag & _).
  { cbv. reflexivity. }
  exists ia, opened. split; [exact Hcalls|exact Hflag].
Defined.

(* ===================================================================== *)
(** ** Further properties of the device check *)
(* ===================================================================== *)

Section DeviceFacts.

Context {E : ffio_c}.


(** X6. The class default device cannot be passed explicitly with the
    same effect as leaving the argument out: on Darwin the default
    "videotoolbox" is rejected by the device check, elsewhere the default
    "cuda" is replaced by "cuda:0". *)
Theorem X6_default_device_passed_explicitly :
  (platform_system = "Darwin" ->
   FFIO_hw_device = "videotoolbox" /\
   init_hw_device FFIO_hw_device = Raise (ValueError hw_device_msg)) /\
  (platform_system <> "Darwin" ->
   FFIO_hw_device = "cuda" /\
   init_hw_device FFIO_hw_device = Ok (Some "cuda:0")).
Proof.
  unfold FFIO_hw_device. split; intros H.
  - rewrite H. cbn. split; reflexivity.
  - apply String.eqb_neq in H. rewrite H. cbn. split; reflexivity.
Qed.

End DeviceFacts.


Lemma X6_default_device_passed_explicitly_witness :
  FFIO_hw_device (E := Scripted.engine 1 true 0 1) = "cuda" /\
  init_hw_device (FFIO_hw_device (E := Scripted.engine 1 true 0 1))
  = Ok (Some "cuda:0").
Proof.
  apply (proj2 (X6_default_device_passed_explicitly (E := Scripted.engine 1 true 0 1))).
  discriminate.
Defined.

(* ===================================================================== *)
(** ** Further properties of the decoder's parameter check *)
(* ===================================================================== *)

Lemma list_remove_in x l l' : list_remove x l = Some l' -> In x l.
Proof.
  revert l'. induction l as [|y l IH]; cbn; [discriminate|].
  intros l'. destruct (String.eqb y x) eqn:Hy.
  - apply String.eqb_eq in Hy. auto.
  - destruct (list_remove x l) as [l0|]; cbn; [|discriminate]. eauto.
Qed.

Lemma list_remove_some x l : In x l -> exists l', list_remove x l = Some l'.
Proof.
  induction l as [|y l IH]; cbn; [tauto|].
  intros H. destruct (String.eqb y x) eqn:Hy; [eauto|].
  destruct H as [H|H]; [subst; rewrite String.eqb_refl in Hy; discriminate|].
  destruct (IH H) as [l' Hl]. rewrite Hl. cbn. eauto.
Qed.

Lemma list_remove_nodup x l l' :
  NoDup l -> list_remove x l = Some l' -> NoDup l' /\ ~ In x l'.
Proof.
  revert l'. induction l as [|y l IH]; cbn; [discriminate|].
  intros l' Hnd. inversion Hnd as [|? ? Hy Hl]; subst.
  destruct (String.eqb y x) eqn:Hyx.
  - apply String.eqb_eq in Hyx. subst y. intros H; inversion H; subst. auto.
  - destruct (list_remove x l) as [l0|] eqn:Hr; cbn; [|discriminate].
    intros H; inversion H; subst. destruct (IH l0 Hl eq_refl) as [Hnd0 Hx].
    apply String.eqb_neq in Hyx. split.
    + constructor; [|exact Hnd0]. intros Hin. apply Hy.
      eapply list_remove_incl; eauto.
    + intros [Hin|Hin]; [congruence|auto].
Qed.

Lemma check_params_ok_inv o params :
  check_params o params = Ok tt ->
  forall p, In p params ->
    exists v, getattr o p = Some v /\ py_in v restricted_values = true.
Proof.
  induction params as [|q params IH]; cbn [check_params]; intros H p Hp; [destruct Hp|].
  destruct (getattr o q) as [v|] eqn:Hq; [|discriminate].
  destruct (py_in v restricted_values) eqn:Hv; cbn [negb] in H; [|discriminate].
  destruct Hp as [->|Hp]; eauto.
Qed.

Lemma check_params_ext o1 o2 params :
  (forall p, In p params -> getattr o1 p = getattr o2 p) ->
  check_params o1 params = check_params o2 params.
Proof.
  induction params as [|q params IH]; intros H; [reflexivity|].
  cbn [check_params]. rewrite (H q) by (left; reflexivity).
  destruct (getattr o2 q) as [v|]; [|reflexivity].
  destruct (py_in v restricted_values); cbn [negb]; [|reflexivity].
  apply IH. intros p Hp. apply H. right; exact Hp.
Qed.

Lemma init_check_decode cp :
  init_check_codec_params DECODE (Some cp)
  = bindR (checked_params cp) (check_params cp).
Proof.
  unfold init_check_codec_params, checked_params. cbn [FFIOMode_eqb].
  unfold bindR. destruct (remove "flags" _) as [l1|]; [|reflexivity].
  destruct (remove "flags2" l1) as [l2|]; [|reflexivity].
  destruct (remove "sei_uuid" l2); reflexivity.
Qed.

Lemma dont_care_false name :
  dont_care name = false <-> name <> "flags" /\ name <> "flags2" /\ name <> "sei_uuid".
Proof.
  unfold dont_care, str_in. cbn [existsb].
  rewrite !orb_false_iff, !String.eqb_neq. tauto.
Qed.

(** The names the loop goes through, when [dir] has no name twice. *)
Lemma checked_params_spec cp :
  NoDup (dir cp) ->
  (In "flags" (dir cp) /\ In "flags2" (dir cp) /\ In "sei_uuid" (dir cp) ->
   exists l, checked_params cp = Ok l /\
     forall p, In p l <->
       In p (dir cp) /\ startswith p "_" = false /\ dont_care p = false) /\
  (forall l, checked_params cp = Ok l ->
     In "flags" (dir cp) /\ In "flags2" (dir cp) /\ In "sei_uuid" (dir cp)).
Proof.
  intros Hnd. unfold checked_params.
  set (params := filter _ (dir cp)).
  assert (Hnd0 : NoDup params) by (apply NoDup_filter; exact Hnd).
  assert (Hin0 : forall p, In p params <-> In p (dir cp) /\ startswith p "_" = false).
  { intros p. unfold params. rewrite filter_In, negb_true_iff. tauto. }
  unfold remove, bindR. split.
  - intros (Hf & Hf2 & Hs).
    destruct (list_remove_some "flags" params) as [l1 H1];
      [apply Hin0; split; [exact Hf|reflexivity]|].
    rewrite H1. destruct (list_remove_nodup _ Hnd0 H1) as [Hnd1 Hn1].
    destruct (list_remove_some "flags2" l1) as [l2 H2].
    { eapply list_remove_keeps; eauto; [discriminate|].
      apply Hin0; split; [exact Hf2|reflexivity]. }
    rewrite H2. destruct (list_remove_nodup _ Hnd1 H2) as [Hnd2 Hn2].
    destruct (list_remove_some "sei_uuid" l2) as [l3 H3].
    { eapply list_remove_keeps; eauto; [discriminate|].
      eapply list_remove_keeps; eauto; [discriminate|].
      apply Hin0; split; [exact Hs|reflexivity]. }
    rewrite H3. destruct (list_remove_nodup _ Hnd2 H3) as [Hnd3 Hn3].
    exists l3. split; [reflexivity|]. intros p. rewrite dont_care_false. split.
    + intros Hp.
      assert (Hp2 : In p l2) by (eapply list_remove_incl; eauto).
      assert (Hp1 : In p l1) by (eapply list_remove_incl; eauto).
      assert (Hp0 : In p params) by (eapply list_remove_incl; eauto).
      apply Hin0 in Hp0. destruct Hp0 as [Hd Hpub].
      repeat split; try assumption; intros ->; contradiction.
    + intros (Hd & Hpub & Hnf & Hnf2 & Hns).
      eapply list_remove_keeps; eauto.
      eapply list_remove_keeps; eauto.
      eapply list_remove_keeps; eauto.
      apply Hin0; split; assumption.
  - intros l.
    destruct (list_remove "flags" params) as [l1|] eqn:H1; [|discriminate].
    destruct (list_remove "flags2" l1) as [l2|] eqn:H2; [|discriminate].
    destruct (list_remove "sei_uuid" l2) as [l3|] eqn:H3; [|discriminate].
    intros _.
    pose proof (list_remove_incl _ _ H1) as I1.
    pose proof (list_remove_incl _ _ H2) as I2.
    apply list_remove_in in H1, H2, H3.
    split; [apply Hin0; exact H1|].
    split; [apply Hin0, I1; exact H2|].
    apply Hin0, I1, I2; exact H3.
Qed.

(** X7. When [dir] of the parameter object has no name twice, a decoder's
    parameters pass the check exactly when the object has the attributes
    flags, flags2 and sei_uuid and every other public attribute holds one
    of 0, -1, b'', True, False (or 1). An object without one of the three
    names is rejected, by the ValueError of [list.remove]. *)
Theorem X7_decoder_params_accepted cp :
  NoDup (dir cp) ->
  (init_check_codec_params DECODE (Some cp) = Ok tt <->
   In "flags" (dir cp) /\ In "flags2" (dir cp) /\ In "sei_uuid" (dir cp) /\
   forall name v,
     getattr cp name = Some v -> startswith name "_" = false ->
     dont_care name = false -> py_in v restricted_values = true) /\
  (~ (In "flags" (dir cp) /\ In "flags2" (dir cp) /\ In "sei_uuid" (dir cp)) ->
   init_check_codec_params DECODE (Some cp)
   = Raise (ValueError "list.remove(x): x not in list")).
Proof.
  intros Hnd. destruct (checked_params_spec cp Hnd) as [Hsome Hinv].
  rewrite init_check_decode. split; [split|].
  - intros H. destruct (checked_params cp) as [l|e] eqn:Hl; [|discriminate H].
    cbn [bindR] in H. pose proof (Hinv l eq_refl) as Hthree.
    destruct (Hsome Hthree) as (l' & Hl' & Hmem). injection Hl' as <-.
    destruct Hthree as (Hf & Hf2 & Hs). do 3 (split; [assumption|]).
    intros name v Hget Hpub Hcare.
    destruct (check_params_ok_inv _ _ H name) as (v' & Hv' & Hacc).
    { apply Hmem. split; [eapply getattr_in_dir; eauto|]. split; assumption. }
    congruence.
  - intros (Hf & Hf2 & Hs & Hall).
    destruct (Hsome (conj Hf (conj Hf2 Hs))) as (l & Hl & Hmem).
    rewrite Hl. cbn [bindR]. apply check_params_accepts.
    intros p Hp. apply Hmem in Hp. destruct Hp as (Hd & Hpub & Hcare).
    destruct (in_dir_getattr cp p Hd) as [v Hv]. exists v. split; [exact Hv|].
    eapply Hall; eauto.
  - intros Hmiss. unfold checked_params, remove, bindR in *.
    destruct (list_remove "flags" _) as [l1|] eqn:H1; [|reflexivity].
    destruct (list_remove "flags2" l1) as [l2|] eqn:H2; [|reflexivity].
    destruct (list_remove "sei_uuid" l2) as [l3|] eqn:H3; [|reflexivity].
    elim Hmiss. eapply Hinv. reflexivity.
Qed.

(** X8. When [dir] has no name twice, the values of flags, flags2 and
    sei_uuid and of every attribute whose name starts with an underscore
    play no part in the decoder check: assigning any value to one of them
    leaves the outcome of the check as it was. *)
Theorem X8_dont_care_values_ignored cp name v :
  NoDup (dir cp) ->
  dont_care name = true \/ startswith name "_" = true ->
  init_check_codec_params DECODE (Some (setattr cp name v))
  = init_check_codec_params DECODE (Some cp).
Proof.
  intros Hnd Hname. rewrite !init_check_decode.
  assert (Hdir : checked_params (setattr cp name v) = checked_params cp).
  { unfold checked_params. rewrite dir_setattr. reflexivity. }
  rewrite Hdir. destruct (checked_params cp) as [l|e] eqn:Hl; [|reflexivity].
  cbn [bindR]. apply check_params_ext. intros p Hp.
  apply getattr_setattr_other. intros ->.
  destruct (checked_params_spec cp Hnd) as [Hsome Hinv].
  destruct (Hsome (Hinv l Hl)) as (l' & Hl' & Hmem).
  assert (l' = l) by congruence. subst l'.
  apply Hmem in Hp. destruct Hp as (_ & Hpub & Hcare).
  destruct Hname; congruence.
Qed.

Lemma getattr_in o name v : getattr o name = Some v -> In (name, v) o.
Proof.
  induction o as [|[n x] o IH]; cbn; [discriminate|].
  destruct (String.eqb n name) eqn:Hn.
  - apply String.eqb_eq in Hn. intros H; inversion H; subst. left; reflexivity.
  - auto.
Qed.

Lemma X7_decoder_params_accepted_witness :
  init_check_codec_params DECODE (Some (C2_inputs.with_bitrate 0)) = Ok tt.
Proof.
  destruct (X7_decoder_params_accepted (C2_inputs.with_bitrate 0)) as [[_ Hacc] _].
  - repeat constructor; cbn; intuition discriminate.
  - apply Hacc. split; [cbn; auto|]. split; [cbn; auto|]. split; [cbn; auto 10|].
    intros name v Hget _ _. apply getattr_in in Hget. cbn in Hget.
    repeat (destruct Hget as [Hget|Hget]; [inversion Hget; reflexivity|]).
    destruct Hget.
Defined.

Lemma X8_dont_care_values_ignored_witness :
  init_check_codec_params DECODE
    (Some (setattr (C2_inputs.with_bitrate 0) "flags" (VInt 4096)))
  = init_check_codec_params DECODE (Some (C2_inputs.with_bitrate 0)).
Proof.
  apply X8_dont_care_values_ignored.
  - repeat constructor; cbn; intuition discriminate.
  - left. reflexivity.
Defined.

(* ===================================================================== *)
(** ** Further properties of the PTS trick *)
(* ===================================================================== *)

Section PtsTrickFacts.

Context {E : ffio_c}.

(** X9. If neither trick's value is -1, a parameter object that has been
    through [_auto_set_pts_trick] no longer holds the sentinel, and going
    through it again, for any target, leaves the object as it is: an
    object reused for another session keeps the trick resolved for the
    first target. *)
Theorem X9_pts_trick_resolved_once url1 url2 cp cp' :
  FFIO_PTS_TRICK_EVEN <> -1 ->
  FFIO_PTS_TRICK_INCREASE <> -1 ->
  _auto_set_pts_trick url1 cp = Ok cp' ->
  getattr cp' "pts_trick" <> Some (VInt (-1)) /\
  _auto_set_pts_trick url2 cp' = Ok cp'.
Proof.
  intros He Hi. unfold _auto_set_pts_trick at 1.
  destruct (getattr cp "pts_trick") as [v|] eqn:Hv; [|discriminate].
  assert (Hkeep : forall k, k <> -1 ->
            getattr (setattr cp "pts_trick" (VInt k)) "pts_trick" <> Some (VInt (-1)) /\
            _auto_set_pts_trick url2 (setattr cp "pts_trick" (VInt k))
            = Ok (setattr cp "pts_trick" (VInt k))).
  { intros k Hk. unfold _auto_set_pts_trick.
    rewrite (getattr_setattr_same cp "pts_trick" (VInt k) Hv).
    split; [intros H; inversion H; congruence|].
    cbn [py_eq]. apply Z.eqb_neq in Hk. rewrite Hk. reflexivity. }
  destruct (py_eq v (VInt (-1))) eqn:Hs.
  - destruct (startswith url1 "rtmp://" || startswith url1 "rtsp://"
              || startswith url1 "srt://");
      intros H; injection H as <-; apply Hkeep; assumption.
  - intros H; injection H as <-. split.
    + rewrite Hv. intros H. injection H as ->. discriminate Hs.
    + unfold _auto_set_pts_trick. rewrite Hv, Hs. reflexivity.
Qed.

End PtsTrickFacts.

Lemma X9_pts_trick_resolved_once_witness :
  _auto_set_pts_trick (E := Scripted.engine 1 true 0 1) "file.mp4"
    (setattr Scripted.default_params "pts_trick" (VInt 0))
  = Ok (setattr Scripted.default_params "pts_trick" (VInt 0)).
Proof.
  apply (X9_pts_trick_resolved_once (E := Scripted.engine 1 true 0 1)
           "rtsp://cam/1" "file.mp4" Scripted.default_params).
  - discriminate.
  - discriminate.
  - reflexivity.
Defined.

(* ===================================================================== *)
(** ** Further properties of the frame calls *)
(* ===================================================================== *)

Section CallFacts.

Context {E : ffio_c}.

Lemma after_call_handle self p' ok : _c_ffio_ptr (after_call self p' ok) = Some p'.
Proof. unfold after_call. destruct ok; reflexivity. Qed.

Lemma after_call_settings self p' ok : same_settings self (after_call self p' ok).
Proof. unfold after_call, same_settings. destruct ok; cbn; repeat split. Qed.

Lemma same_settings_refl self : same_settings self self.
Proof. unfold same_settings. repeat split. Qed.

Lemma same_settings_trans a b c :
  same_settings a b -> same_settings b c -> same_settings a c.
Proof.
  unfold same_settings.
  intros (H1 & H2 & H3 & H4 & H5 & H6 & H7 & H8 & H9 & H10)
         (G1 & G2 & G3 & G4 & G5 & G6 & G7 & G8 & G9 & G10).
  repeat split; congruence.
Qed.

(** One call on a session with a live handle. *)
Lemma do_op_live self p o t :
  _c_ffio_ptr self = Some p ->
  exists b self' p' added,
    do_op self o t = (Ok (b, self'), (t ++ added)%list) /\
    _c_ffio_ptr self' = Some p' /\
    frame_seq_py self' = frame_seq_py self + (if b then 1 else 0) /\
    same_settings self self' /\
    existsb is_teardown added = false /\
    (List.length added <= 1)%nat.
Proof.
  intros Hp. destruct o as [f|off f|img sei|off sei]; cbn [do_op].
  - unfold bind. rewrite (decode_one_frame_eq _ f t Hp). cbn.
    do 4 eexists. split; [reflexivity|].
    split; [apply after_call_handle|]. split; [apply frame_seq_py_after_call|].
    split; [apply after_call_settings|]. split; [reflexivity|cbn; lia].
  - unfold bind. rewrite (decode_one_frame_to_shm_eq _ off f t Hp). cbn.
    do 4 eexists. split; [reflexivity|].
    split; [apply after_call_handle|]. split; [apply frame_seq_py_after_call|].
    split; [apply after_call_settings|]. split; [reflexivity|cbn; lia].
  - destruct img as [b|a|wd ht px].
    + rewrite (encode_bytes_eq _ b sei t Hp).
      do 4 eexists. split; [reflexivity|].
      split; [apply after_call_handle|]. split; [apply frame_seq_py_after_call|].
      split; [apply after_call_settings|]. split; [reflexivity|cbn; lia].
    + rewrite encode_one_frame_equation_2. cbv beta zeta.
      rewrite (encode_bytes_eq _ (tobytes a) sei t Hp).
      do 4 eexists. split; [reflexivity|].
      split; [apply after_call_handle|]. split; [apply frame_seq_py_after_call|].
      split; [apply after_call_settings|]. split; [reflexivity|cbn; lia].
    + rewrite encode_one_frame_equation_3. unfold ret.
      exists false, self, p, []. rewrite app_nil_r.
      split; [reflexivity|]. split; [exact Hp|]. split; [lia|].
      split; [apply same_settings_refl|]. split; [reflexivity|cbn; lia].
  - unfold bind. rewrite (encode_from_shm_eq _ off sei t Hp). cbn.
    do 4 eexists. split; [reflexivity|].
    split; [apply after_call_handle|]. split; [apply frame_seq_py_after_call|].
    split; [apply after_call_settings|]. split; [reflexivity|cbn; lia].
Qed.

Lemma successes_cons b bs :
  successes (b :: bs) = (if b then 1 else 0) + successes bs.
Proof. unfold successes. destruct b; cbn [filter List.length]; lia. Qed.

(** Any number of calls on a session with a live handle. *)
Lemma do_ops_live ops : forall self p t,
  _c_ffio_ptr self = Some p ->
  exists results self' p' added,
    do_ops self ops t = (Ok (results, self'), (t ++ added)%list) /\
    List.length results = List.length ops /\
    _c_ffio_ptr self' = Some p' /\
    frame_seq_py self' = frame_seq_py self + successes results /\
    same_settings self self' /\
    existsb is_teardown added = false /\
    (List.length added <= List.length ops)%nat.
Proof.
  induction ops as [|o ops IH]; intros self p t Hp.
  - exists [], self, p, []. cbn. rewrite app_nil_r. unfold ret.
    split; [reflexivity|]. split; [reflexivity|]. split; [exact Hp|].
    split; [unfold successes; cbn; lia|]. split; [apply same_settings_refl|].
    split; [reflexivity|lia].
  - destruct (do_op_live self o t Hp)
      as (b & self1 & p1 & added1 & Hrun1 & Hp1 & Hseq1 & Hset1 & Htd1 & Hlen1).
    destruct (IH self1 p1 (t ++ added1)%list Hp1)
      as (bs & self2 & p2 & added2 & Hrun2 & Hlen & Hp2 & Hseq2 & Hset2 & Htd2 & Hlen2).
    exists (b :: bs), self2, p2, (added1 ++ added2)%list.
    cbn [do_ops]. unfold bind at 1. rewrite Hrun1. cbn [snd fst].
    unfold bind at 1. rewrite Hrun2. unfold ret. cbn [snd fst].
    rewrite app_assoc. split; [reflexivity|].
    split; [cbn; lia|]. split; [exact Hp2|].
    split; [rewrite successes_cons; lia|].
    split; [eapply same_settings_trans; eauto|].
    split; [rewrite existsb_app, Htd1, Htd2; reflexivity|].
    rewrite length_app. cbn [List.length]. lia.
Qed.

(** X10. On a session with a live handle, any sequence of decode and
    encode calls, of either kind and in any order, runs to the end, gives
    one result per call, and leaves the frame counter increased by the
    number of truthy results. *)
Theorem X10_counter_counts_successes self p ops t :
  _c_ffio_ptr self = Some p ->
  exists results self' t',
    do_ops self ops t = (Ok (results, self'), t') /\
    List.length results = List.length ops /\
    frame_seq_py self' = frame_seq_py self + successes results.
Proof.
  intros Hp. destruct (do_ops_live ops self t Hp)
    as (results & self' & p' & added & Hrun & Hlen & _ & Hseq & _).
  eauto 6.
Qed.

(** X11. Decode and encode calls change nothing in the session but the
    engine object and the frame counter: target, mode, width, height,
    framerate, parameters and flags stay as construction left them, the
    handle stays in place, and the calls never finalize or delete the
    engine object, whatever they return. Each call reaches the engine at
    most once. *)
Theorem X11_calls_keep_settings self p ops t results self' t' :
  _c_ffio_ptr self = Some p ->
  do_ops self ops t = (Ok (results, self'), t') ->
  same_settings self self' /\
  (exists p', _c_ffio_ptr self' = Some p') /\
  exists added,
    t' = (t ++ added)%list /\
    existsb is_teardown added = false /\
    (List.length added <= List.length ops)%nat.
Proof.
  intros Hp Hrun. destruct (do_ops_live ops self t Hp)
    as (results0 & self0 & p' & added & Hrun0 & _ & Hp' & _ & Hset & Htd & Hlen).
  rewrite Hrun0 in Hrun. injection Hrun as _ <- <-.
  split; [exact Hset|]. split; [eauto|]. eauto.
Qed.

(** X12. Validity and the engine-side counter are read through the
    handle at each access: after a decode call, [__bool__] and
    [frame_seq_c] give the state code and the counter of the engine object
    as that call left it, while width and height are still the values
    recorded at construction. The same holds after an encode call. *)
Theorem X12_live_reads self p t :
  _c_ffio_ptr self = Some p ->
  (forall f frame self' t',
     decode_one_frame self f t = (Ok (frame, self'), t') ->
     let p' := fst (api_decodeOneFrame p (option_map encode f)) in
     __bool__ self' = Ok (is_open_code (ffio_state p')) /\
     frame_seq_c self' = Ok (frame_seq p') /\
     width self' = width self /\ height self' = height self) /\
  (forall img sei ok self' t',
     encode_one_frame self (img_bytes img) sei t = (Ok (ok, self'), t') ->
     let p' := fst (api_encodeOneFrame p img (option_map encode sei)
                      (sei_size (option_map encode sei))) in
     __bool__ self' = Ok (is_open_code (ffio_state p')) /\
     frame_seq_c self' = Ok (frame_seq p') /\
     width self' = width self /\ height self' = height self).
Proof.
  intros Hp. split.
  - intros f frame self' t' Hrun. rewrite (decode_one_frame_eq _ f t Hp) in Hrun.
    injection Hrun as _ <- _. cbv zeta.
    pose proof (after_call_handle self (fst (api_decodeOneFrame p (option_map encode f)))
                  (CFFIOFrame__bool__ (snd (api_decodeOneFrame p (option_map encode f)))))
      as Hh.
    split; [apply bool_of_handle; exact Hh|].
    split; [unfold frame_seq_c; rewrite Hh; reflexivity|].
    unfold after_call. destruct (CFFIOFrame__bool__ _); split; reflexivity.
  - intros img sei ok self' t' Hrun. rewrite (encode_bytes_eq _ img sei t Hp) in Hrun.
    cbv zeta in Hrun. injection Hrun as _ <- _. cbv zeta.
    match goal with
    | |- context [after_call self ?q ?b] =>
        pose proof (after_call_handle self q b) as Hh
    end.
    split; [apply bool_of_handle; exact Hh|].
    split; [unfold frame_seq_c; rewrite Hh; reflexivity|].
    unfold after_call. destruct (snd _ =? 0); split; reflexivity.
Qed.

End CallFacts.

Lemma X10_counter_counts_successes_witness :
  exists results self' t',
    do_ops (E := Scripted.engine 1 true 5 0)
      (Sessions.opened (Scripted.engine 1 true 5 0) Sessions.stream DECODE 7)
      [op_decode None; op_encode (img_bytes [x00]) None; op_encode_from_shm 0 None;
       op_decode_to_shm 0 None] []
    = (Ok (results, self'), t') /\
    List.length results = 4%nat /\
    frame_seq_py self' = 7 + successes results.
Proof.
  apply (X10_counter_counts_successes (E := Scripted.engine 1 true 5 0)
           (Sessions.opened (Scripted.engine 1 true 5 0) Sessions.stream DECODE 7)
           (p := Sessions.stream)).
  reflexivity.
Defined.

Lemma X11_calls_keep_settings_witness :
  exists self' t',
    do_ops (E := Scripted.engine 1 false 0 1)
      (Sessions.opened (Scripted.engine 1 false 0 1) Sessions.stream DECODE 7)
      [op_decode None; op_decode None] []
    = (Ok ([false; false], self'), t') /\
    width self' = 640 /\ existsb is_teardown t' = false.
Proof.
  edestruct (fun results self' t' H =>
               X11_calls_keep_settings (E := Scripted.engine 1 false 0 1)
                 (Sessions.opened (Scripted.engine 1 false 0 1) Sessions.stream DECODE 7)
                 (p := Sessions.stream) [op_decode None; op_decode None] []
                 (results := results) (self' := self') (t' := t') eq_refl H)
    as (Hset & _ & added & Hadd & Htd & _).
  { cbv. reflexivity. }
  do 2 eexists. split; [cbv; reflexivity|].
  destruct Hset as (_ & _ & _ & Hw & _). split; [symmetry; exact Hw|].
  cbn in Hadd. rewrite <- Hadd in Htd. exact Htd.
Defined.

Lemma X12_live_reads_witness :
  exists frame self' t',
    decode_one_frame (E := Scripted.engine 1 true 0 1)
      (Sessions.opened (Scripted.engine 1 true 0 1) Sessions.stream DECODE 7) None []
    = (Ok (frame, self'), t') /\
    __bool__ self' = Ok true /\ frame_seq_c self' = Ok 1 /\ width self' = 640.
Proof.
  destruct (X12_live_reads (E := Scripted.engine 1 true 0 1)
              (Sessions.opened (Scripted.engine 1 true 0 1) Sessions.stream DECODE 7)
              (p := Sessions.stream) [] eq_refl) as [Hdec _].
  edestruct (fun frame self' t' H => Hdec None frame self' t' H)
    as (Hb & Hc & Hw & _).
  { cbv. reflexivity. }
  do 3 eexists. split; [cbv; reflexivity|].
  split; [exact Hb|]. split; [exact Hc|exact Hw].
Defined.

(* ===================================================================== *)
(** ** Further properties of teardown and display *)
(* ===================================================================== *)

Section TeardownFacts.

Context {E : ffio_c}.

(** X13. When [release_memory] returns, the engine has been asked to
    finalize and then to delete, nothing else; the session has dropped
    its handle, target and parameters and has width, height and frame
    counter 0. Its framerate, mode, flags and device are as before. With
    the handle gone, [bool(self)], [repr(self)] and [frame_seq_c] raise
    AttributeError instead of reporting an invalid session. *)
Theorem X13_after_release self t self' t' :
  release_memory self t = (Ok self', t') ->
  t' = (t ++ [ev_finalizeFFIO; ev_deleteFFIO])%list /\
  _c_ffio_ptr self' = None /\ target_url self' = None /\ codec_params self' = None /\
  width self' = 0 /\ height self' = 0 /\ frame_seq_py self' = 0 /\
  fps self' = fps self /\ mode self' = mode self /\
  hw_enabled self' = hw_enabled self /\
  pix_fmt_hw_enabled self' = pix_fmt_hw_enabled self /\
  shm_enabled self' = shm_enabled self /\ hw_device self' = hw_device self /\
  __bool__ self' = Raise (AttributeError "contents") /\
  frame_seq_c self' = Raise (AttributeError "contents") /\
  forall id_self, __repr__ self' id_self = Raise (AttributeError "contents").
Proof.
  unfold release_memory. unfold_m.
  destruct (_c_ffio_ptr self) as [p|] eqn:Hp; [|discriminate].
  cbn. intros H. injection H as <- <-. rewrite <- app_assoc. cbn.
  repeat split.
Qed.

(** X14. A session whose open failed has had its handle deleted by the
    constructor, and keeps the handle; [release_memory] on it returns and
    has the engine finalize and delete that handle once more. *)
Theorem X14_release_after_failed_open url m hw pix dev shm sz off cp t self t' :
  __init__ url m hw pix dev shm sz off cp t = (Ok self, t') ->
  exists ia opened,
    init_calls t' = (init_calls t ++ [(ia, opened)])%list /\
    (ffio_state opened <> 1 ->
     exists self'',
       release_memory self t'
       = (Ok self'', (t' ++ [ev_finalizeFFIO; ev_deleteFFIO])%list) /\
       engine_calls (t' ++ [ev_finalizeFFIO; ev_deleteFFIO])%list
       = (engine_calls t
            ++ [ev_newFFIO; ev_initFFIO ia opened; ev_deleteFFIO;
                ev_finalizeFFIO; ev_deleteFFIO])%list).
Proof.
  intros Hi. apply init_ok_engine_calls in Hi.
  destruct Hi as (sm & d & cp1 & ia & opened & _ & _ & _ & _ & _
                  & Hcalls & Heng & Hptr & _).
  exists ia, opened. split; [exact Hcalls|].
  intros Hs. apply Z.eqb_neq in Hs. rewrite Hs in *.
  destruct (release_memory_eq self t' Hptr) as (self'' & Hrel & _).
  exists self''. split; [exact Hrel|].
  unfold engine_calls in *. rewrite filter_app, Heng. cbn.
  rewrite <- app_assoc. reflexivity.
Qed.

(** X15. [repr(self)] on a session with a handle returns a text that
    starts with "<ffio.ffio.FFIO, valid " exactly when [bool(self)] is
    True, and otherwise is "<ffio.ffio.FFIO, invalid decoder at 0x...>"
    (or "encoder"), without the size or the flags. *)
Theorem X15_repr_agrees_with_bool self p id_self :
  _c_ffio_ptr self = Some p ->
  exists text,
    __repr__ self id_self = Ok text /\
    __bool__ self = Ok (startswith text "<ffio.ffio.FFIO, valid ") /\
    (is_open_code (ffio_state p) = false ->
     text = "<ffio.ffio.FFIO, invalid "
            ++ (if FFIOMode_eqb (mode self) DECODE then "decoder" else "encoder")
            ++ " at " ++ hex id_self ++ ">").
Proof.
  intros Hp. unfold __repr__. rewrite (bool_of_handle _ Hp). cbn [bindR].
  destruct (is_open_code (ffio_state p)) eqn:Hs.
  - eexists. split; [reflexivity|]. split; [|discriminate].
    destruct (FFIOMode_eqb (mode self) DECODE); reflexivity.
  - eexists. split; [reflexivity|]. split; [|reflexivity].
    destruct (FFIOMode_eqb (mode self) DECODE); reflexivity.
Qed.

End TeardownFacts.

Lemma X13_after_release_witness :
  exists self' t',
    release_memory (E := Scripted.engine 1 true 0 1)
      (Sessions.opened (Scripted.engine 1 true 0 1) Sessions.stream DECODE 7) []
    = (Ok self', t') /\
    fps self' = NInt 25 /\ width self' = 0 /\
    __bool__ self' = Raise (AttributeError "contents").
Proof.
  edestruct (fun self' t' H =>
               X13_after_release (E := Scripted.engine 1 true 0 1)
                 (Sessions.opened (Scripted.engine 1 true 0 1) Sessions.stream DECODE 7) []
                 (self' := self') (t' := t') H)
    as (_ & _ & _ & _ & Hw & _ & _ & Hfps & _ & _ & _ & _ & _ & Hb & _).
  { cbv. reflexivity. }
  do 2 eexists. split; [cbv; reflexivity|].
  split; [exact Hfps|]. split; [exact Hw|exact Hb].
Defined.

Lemma X14_release_after_failed_open_witness :
  exists self t' self'' t'',
    __init__ (E := Scripted.engine 0 true 0 1) "missing.mp4" (mode_enum DECODE)
             false false "" None 0 0 None [] = (Ok self, t') /\
    release_memory self t' = (Ok self'', t'') /\
    List.length (filter is_delete t'') = 2%nat.
Proof.
  edestruct (fun self t' H =>
               X14_release_after_failed_open (E := Scripted.engine 0 true 0 1)
                 "missing.mp4" (mode_enum DECODE) false false "" None 0 0 None []
                 (self := self) (t' := t') H)
    as (ia & opened & Hcalls & Hfail).
  { cbv. reflexivity. }
  cbn in Hcalls. injection Hcalls as <- <-.
  destruct Hfail as (self'' & Hrel & _); [discriminate|].
  do 4 eexists. split; [cbv; reflexivity|]. split; [exact Hrel|reflexivity].
Defined.

Lemma X15_repr_agrees_with_bool_witness :
  __repr__ (E := Scripted.engine 1 true 0 1)
    (Sessions.opened (Scripted.engine 1 true 0 1) Sessions.stream DECODE 7) 255
  = Ok "<ffio.ffio.FFIO, valid decoder, 640x480, shm_disabled, hw_disabled, pix_fmt_hw_disabled at 0xff>".
Proof.
  destruct (X15_repr_agrees_with_bool (E := Scripted.engine 1 true 0 1)
              (Sessions.opened (Scripted.engine 1 true 0 1) Sessions.stream DECODE 7)
              (p := Sessions.stream) 255 eq_refl) as (text & Hrepr & _).
  rewrite Hrepr. cbv in Hrepr. injection Hrepr as <-. reflexivity.
Defined.

Section UnguardedCalls.

Context {E : ffio_c}.

(** X16. The frame calls do not look at validity first: on a session
    whose open failed, [decode_one_frame] still returns, after one
    [api_decodeOneFrame] call made on the handle that the constructor has
    already deleted; the frame is whatever the engine gives for it. *)
Theorem X16_decode_after_failed_open url m hw pix dev shm sz off cp t self t' f :
  __init__ url m hw pix dev shm sz off cp t = (Ok self, t') ->
  exists ia opened,
    init_calls t' = (init_calls t ++ [(ia, opened)])%list /\
    (ffio_state opened <> 1 ->
     exists self'',
       decode_one_frame self f t'
       = (Ok (snd (api_decodeOneFrame (api_deleteFFIO opened) (option_map encode f)),
              self''),
          (t' ++ [ev_decodeOneFrame (option_map encode f)])%list)).
Proof.
  intros Hi. apply init_ok_engine_calls in Hi.
  destruct Hi as (sm & d & cp1 & ia & opened & _ & _ & _ & _ & _
                  & Hcalls & _ & Hptr & _).
  exists ia, opened. split; [exact Hcalls|].
  intros Hs. apply Z.eqb_neq in Hs. rewrite Hs in Hptr.
  eexists. apply decode_one_frame_eq. exact Hptr.
Qed.

End UnguardedCalls.

Lemma X16_decode_after_failed_open_witness :
  exists self t' self'' t'',
    __init__ (E := Scripted.engine 0 true 0 1) "missing.mp4" (mode_enum DECODE)
             false false "" None 0 0 None [] = (Ok self, t') /\
    __bool__ self = Ok false /\
    decode_one_frame self None t' = (Ok (true, self''), t'') /\
    frame_seq_py self'' = 1.
Proof.
  edestruct (fun self t' H =>
               X16_decode_after_failed_open (E := Scripted.engine 0 true 0 1)
                 "missing.mp4" (mode_enum DECODE) false false "" None 0 0 None []
                 (self := self) (t' := t') None H)
    as (ia & opened & Hcalls & Hfail).
  { cbv. reflexivity. }
  cbn in Hcalls. injection Hcalls as <- <-.
  destruct Hfail as (self'' & Hdec); [discriminate|].
  do 4 eexists. split; [cbv; reflexivity|]. split; [reflexivity|].
  split; [exact Hdec|].
  cbv in Hdec. injection Hdec as <-. reflexivity.
Defined.
